(** * Telemetry agents of the planetary neural network: acquisition,
      validation, reporting and synthetic signal generation.

    Shallow embedding of the four Python scripts

      - [backend/src/modules/temperature-sensor/scripts/pi4_dht11_sensor.py]
      - [src/modules/pi-health/scripts/pi4_health_monitor.py]
      - [src/modules/temperature-sensor/scripts/test_dht11_integration.py]
      - [src/modules/pi-health/scripts/test_pi_health_integration.py]

    Python floats are modelled by rationals ([Q]); dictionaries by [gmap]
    with string keys; the outside world (sensor, metric sources, HTTP
    service, clock, random source) by oracles the functions consult; the
    effects a function performs are collected in a trace of events. *)

From Stdlib Require Import QArith Qround Lqa ZArith Lia List.
From stdpp Require Import gmap strings list fin_maps.

(** ** Python runtime *)

(** The exception classes the scripts meet.  [KeyboardInterrupt] and
    [SystemExit] derive from [BaseException] only; the last four are
    [requests.exceptions.RequestException] and subclasses of it. *)
Inductive exn : Type :=
  | KeyboardInterrupt
  | SystemExit (code : Z)
  | RuntimeError
  | OSError
  | ValueError
  | TypeError
  | NameError (name : string)
  | AttributeError
  | RequestException
  | ConnectionError
  | Timeout
  | HTTPError.

(** [isinstance(e, Exception)] *)
Definition is_Exception (e : exn) : bool :=
  match e with
  | KeyboardInterrupt | SystemExit _ => false
  | _ => true
  end.

(** [isinstance(e, requests.exceptions.RequestException)] *)
Definition is_RequestException (e : exn) : bool :=
  match e with
  | RequestException | ConnectionError | Timeout | HTTPError => true
  | _ => false
  end.

(** [isinstance(e, KeyboardInterrupt)] *)
Definition is_KeyboardInterrupt (e : exn) : bool :=
  match e with
  | KeyboardInterrupt => true
  | _ => false
  end.

Inductive level : Type := DEBUG | INFO | WARNING | ERROR.

(** JSON values of the wire payloads. *)
#[warnings="-register-all"]
Inductive json : Type :=
  | JNum (q : Q)
  | JInt (z : Z)
  | JStr (s : string)
  | JObj (fields : list (string * json)).

(** What a script does to the outside world, in order. *)
Inductive event : Type :=
  | Log (lvl : level) (msg : string)
  | Sleep (secs : Q)
  | ReadTemperature
  | ReadHumidity
  | Post (url : string) (payload : gmap string json)
  | Get (url : string).

(** A computation either returns or raises, and leaves a trace. *)
Inductive outcome (A : Type) : Type :=
  | Returns (a : A)
  | Raised (e : exn).
Arguments Returns {A} a.
Arguments Raised {A} e.

Definition io (A : Type) : Type := (outcome A * list event)%type.

Definition ret {A} (a : A) : io A := (Returns a, []).
Definition raise {A} (e : exn) : io A := (Raised e, []).
Definition emit (ev : event) : io unit := (Returns tt, [ev]).

Definition bind {A B} (c : io A) (k : A -> io B) : io B :=
  match c with
  | (Returns a, t1) => let '(r, t2) := k a in (r, t1 ++ t2)
  | (Raised e, t1) => (Raised e, t1)
  end.

Declare Scope io_scope.
Delimit Scope io_scope with io.
Notation "x <- c ;; k" := (bind c (fun x => k))
  (at level 100, c at next level, right associativity) : io_scope.
Notation "c ;;; k" := (bind c (fun _ => k))
  (at level 100, right associativity) : io_scope.
Local Open Scope io_scope.

(** [try: c  except <class> as e: h e], the class given by its
    [isinstance] test; other exceptions propagate. *)
Definition try_except {A} (c : io A) (cls : exn -> bool) (h : exn -> io A) : io A :=
  match c with
  | (Returns a, t) => (Returns a, t)
  | (Raised e, t) =>
      if cls e then let '(r, t2) := h e in (r, t ++ t2) else (Raised e, t)
  end.

(** [try: c  finally: f] *)
Definition try_finally {A} (c : io A) (f : io unit) : io A :=
  match c with
  | (r, t) =>
      match f with
      | (Returns _, t2) => (r, t ++ t2)
      | (Raised e, t2) => (Raised e, t ++ t2)
      end
  end.

Definition log (lvl : level) (msg : string) : io unit := emit (Log lvl msg).
(** [time.sleep(secs)]; a negative length is a [ValueError]. *)
Definition time_sleep (secs : Q) : io unit :=
  if Qle_bool 0 secs then emit (Sleep secs) else raise ValueError.

(** The value an oracle of the outside world delivers, or the exception
    it raises. *)
Definition from_source {A} (s : outcome A) : io A :=
  match s with
  | Returns a => ret a
  | Raised e => raise e
  end.

Definition trace_of {A} (c : io A) : list event := snd c.
Definition result_of {A} (c : io A) : outcome A := fst c.

(** Exit status of the interpreter once [main()] has finished: [0] after a
    normal return, the code of [sys.exit], [1] after an uncaught
    exception, and the status a shell reports for a process killed by
    SIGINT after an uncaught [KeyboardInterrupt]. *)
Definition exit_status {A} (r : outcome A) : Z :=
  match r with
  | Returns _ => 0
  | Raised (SystemExit code) => code
  | Raised KeyboardInterrupt => 130
  | Raised _ => 1
  end.

(** *** Numbers *)

Definition Qltb (x y : Q) : bool := negb (Qle_bool y x).

(** [max(a, b)] and [min(a, b)] of the builtins, on two arguments: the
    first argument stays unless the second is strictly better. *)
Definition py_max (a b : Q) : Q := if Qltb a b then b else a.
Definition py_min (a b : Q) : Q := if Qltb b a then b else a.

(** Nearest integer, ties to the even one. *)
Definition round_half_even (x : Q) : Z :=
  let f := Qfloor x in
  let r := (x - inject_Z f)%Q in
  if Qltb r (1 # 2) then f
  else if Qltb (1 # 2) r then (f + 1)%Z
  else if Z.even f then f else (f + 1)%Z.

(** [round(x, ndigits)] for [ndigits >= 0]. *)
Definition round (x : Q) (ndigits : nat) : Q :=
  let scale := inject_Z (10 ^ Z.of_nat ndigits) in
  Qred (inject_Z (round_half_even (x * scale)) / scale).

(** [x % m] on floats, for a positive [m]. *)
Definition py_mod (x m : Q) : Q := (x - m * inject_Z (Qfloor (x / m)))%Q.

(** *** HTTP *)

(** What [session.post] / [session.get] does: a response with its status
    code and body text, or an exception. *)
Inductive http_result : Type :=
  | Response (status_code : Z) (text : string)
  | Fails (e : exn).

Definition session_post (url : string) (payload : gmap string json)
    (r : http_result) : io (Z * string) :=
  emit (Post url payload) ;;;
  match r with
  | Response code text => ret (code, text)
  | Fails e => raise e
  end.

Definition session_get (url : string) (r : http_result) : io (Z * string) :=
  emit (Get url) ;;;
  match r with
  | Response code text => ret (code, text)
  | Fails e => raise e
  end.

(** The fixed device location of every payload. *)
Definition location : json :=
  JObj [("latitude", JNum (-(235505 # 10000))); ("longitude", JNum (-(466333 # 10000)))].

(** [try: c  except C1: h1  except C2: h2 ...]: the first clause whose
    class matches handles the exception. *)
Fixpoint first_handler {A} (e : exn) (clauses : list ((exn -> bool) * (exn -> io A)))
    : option (io A) :=
  match clauses with
  | [] => None
  | (cls, h) :: rest => if cls e then Some (h e) else first_handler e rest
  end.

Definition try_excepts {A} (c : io A) (clauses : list ((exn -> bool) * (exn -> io A)))
    : io A :=
  match c with
  | (Returns a, t) => (Returns a, t)
  | (Raised e, t) =>
      match first_handler e clauses with
      | Some (r, t2) => (r, t ++ t2)
      | None => (Raised e, t)
      end
  end.

(** ** pi4_dht11_sensor.py *)

Module DHT11Sensor.

Definition API_BASE_URL : string := "http://localhost:3000".
Definition DEVICE_ID : string := "pi4-dht11-001".
Definition READING_INTERVAL : Q := 2.
Definition MAX_RETRIES : nat := 3.
Definition API_TIMEOUT : Q := 10.

(** Reading one property of the driver object: a value, [None], or an
    exception of the driver. *)
Inductive read : Type :=
  | Yields (v : option Q)
  | Throws (e : exn).

Record probe : Type := { temperature : read; humidity : read }.

(** The driver object [adafruit_dht.DHT11]: what it answers in the given
    call of [read_sensor_data] at the given attempt. *)
Definition driver : Type := nat -> nat -> probe.

Record t : Type := {
  gpio_pin : Z;
  device_id : string;
  api_url : string;
  dht_device : option driver
}.

(** The dictionary [read_sensor_data] returns. *)
Record sensor_data : Type := {
  sd_temperature : Q;
  sd_humidity : Q;
  sd_timestamp : string
}.

Definition get_temperature (dev : nat -> probe) (attempt : nat) : io (option Q) :=
  emit ReadTemperature ;;;
  match temperature (dev attempt) with
  | Yields v => ret v
  | Throws e => raise e
  end.

Definition get_humidity (dev : nat -> probe) (attempt : nat) : io (option Q) :=
  emit ReadHumidity ;;;
  match humidity (dev attempt) with
  | Yields v => ret v
  | Throws e => raise e
  end.

Definition initialize_sensor (self : t) (hw : outcome driver) : io (bool * t) :=
  try_except
    (match hw with
     | Returns d =>
         log INFO "DHT11 sensor initialized successfully" ;;;
         ret (true, {| gpio_pin := gpio_pin self; device_id := device_id self;
                       api_url := api_url self; dht_device := Some d |})
     | Raised e => raise e
     end)
    is_Exception
    (fun e => log ERROR "Failed to initialize DHT11 sensor" ;;; ret (false, self)).

(** How one iteration of the retry loop ends. *)
Inductive flow : Type :=
  | Continue
  | Return (d : sensor_data).

(** The body of [for attempt in range(MAX_RETRIES)]. *)
Definition attempt_body (dev : nat -> probe) (utcnow : string) (attempt : nat) : io flow :=
  try_except
    (temperature <- get_temperature dev attempt ;;
     humidity <- get_humidity dev attempt ;;
     match temperature, humidity with
     | Some temperature, Some humidity =>
         if Qltb temperature (-100) || Qltb 100 temperature then
           (log WARNING "Temperature out of range" ;;; ret Continue)
         else if Qltb humidity 0 || Qltb 100 humidity then
           (log WARNING "Humidity out of range" ;;; ret Continue)
         else
           (log INFO "Temp, Humidity" ;;;
            ret (Return {| sd_temperature := temperature;
                           sd_humidity := humidity;
                           sd_timestamp := utcnow +:+ "Z" |}))
     | _, _ =>
         log WARNING "Invalid readings" ;;;
         time_sleep 1 ;;;
         ret Continue
     end)
    is_Exception
    (fun e =>
       log ERROR "Error reading sensor" ;;;
       (if (attempt <? MAX_RETRIES - 1)%nat then time_sleep 1 else ret tt) ;;;
       ret Continue).

Fixpoint for_attempt_in (dev : nat -> probe) (utcnow : string) (range : list nat)
    : io (option sensor_data) :=
  match range with
  | [] => ret None
  | attempt :: rest =>
      f <- attempt_body dev utcnow attempt ;;
      match f with
      | Return d => ret (Some d)
      | Continue => for_attempt_in dev utcnow rest
      end
  end.

(** [call] numbers the calls of [read_sensor_data] on this object;
    [utcnow] is [datetime.utcnow().isoformat()]. *)
Definition read_sensor_data (self : t) (call : nat) (utcnow : string)
    : io (option sensor_data) :=
  match dht_device self with
  | None => log ERROR "Sensor not initialized" ;;; ret None
  | Some dev =>
      r <- for_attempt_in (dev call) utcnow (seq 0 MAX_RETRIES) ;;
      match r with
      | Some d => ret (Some d)
      | None => log ERROR "Failed to read sensor data after all attempts" ;;; ret None
      end
  end.

Definition payload_of (self : t) (d : sensor_data) : gmap string json :=
  list_to_map
    [("deviceId", JStr (device_id self));
     ("temperature", JNum (sd_temperature d));
     ("humidity", JNum (sd_humidity d));
     ("timestamp", JStr (sd_timestamp d));
     ("gpioPin", JInt 4);
     ("sensorType", JStr "DHT11");
     ("location", location)].

Definition send_to_api (self : t) (data : option sensor_data) (api : http_result)
    : io bool :=
  match data with
  | None => ret false
  | Some d =>
      let payload := payload_of self d in
      try_except
        (response <- session_post (api_url self +:+ "/dht11-sensor/readings") payload api ;;
         if (fst response =? 201)%Z then
           (log INFO "Data sent to API successfully" ;;; ret true)
         else
           (log ERROR "API request failed" ;;; ret false))
        is_RequestException
        (fun e => log ERROR "Failed to send data to API" ;;; ret false)
  end.

(** The outside world of one run. *)
Record env : Type := {
  hardware : outcome driver;        (* [adafruit_dht.DHT11(pin)] *)
  utcnow : nat -> string;           (* the clock, per cycle *)
  api : nat -> http_result          (* the answer to the POST of a cycle *)
}.

(** [while True]: [fuel] cycles complete, then the operator's interrupt
    arrives. *)
Fixpoint while_true (self : t) (w : env) (cycle fuel : nat) : io unit :=
  match fuel with
  | O => raise KeyboardInterrupt
  | S fuel' =>
      data <- read_sensor_data self cycle (utcnow w cycle) ;;
      (match data with
       | Some _ =>
           success <- send_to_api self data (api w cycle) ;;
           if negb success then
             log WARNING "Failed to send data to API, but continuing..."
           else ret tt
       | None => ret tt
       end) ;;;
      time_sleep READING_INTERVAL ;;;
      while_true self w (S cycle) fuel'
  end.

Definition run (self : t) (w : env) (fuel : nat) : io unit :=
  log INFO "Starting DHT11 sensor monitoring..." ;;;
  init <- initialize_sensor self (hardware w) ;;
  let '(ok, self) := init in
  if negb ok then
    (log ERROR "Failed to initialize sensor. Exiting." ;;; ret tt)
  else
    (log INFO "Monitoring started" ;;;
     log INFO "Device ID" ;;;
     log INFO "Reading interval" ;;;
     try_finally
       (try_excepts (while_true self w 0 fuel)
          [(is_KeyboardInterrupt, fun _ => log INFO "Monitoring stopped by user");
           (is_Exception, fun _ => log ERROR "Unexpected error")])
       (log INFO "DHT11 sensor monitoring stopped")).

(** [euid] is [os.geteuid()]. *)
Definition main (euid : Z) (w : env) (fuel : nat) : io unit :=
  if negb (euid =? 0)%Z then
    (log ERROR "This script must be run as root (sudo) for GPIO access" ;;;
     raise (SystemExit 1))
  else
    let sensor := {| gpio_pin := 4; device_id := DEVICE_ID;
                     api_url := API_BASE_URL; dht_device := None |} in
    run sensor w fuel.

End DHT11Sensor.

(** ** pi4_health_monitor.py *)

Module PiHealthMonitor.

Definition API_BASE_URL : string := "http://localhost:3000".
Definition DEVICE_ID : string := "pi4-device-001".
Definition MONITORING_INTERVAL : Z := 30.
Definition MAX_RETRIES : nat := 3.
Definition API_TIMEOUT : Q := 10.

Record t : Type := {
  api_url : string;
  device_id : string;
  interval : Z
}.

(** The [CompletedProcess] of a [vcgencmd] call: its return code, and what
    the expression that parses its standard output evaluates to
    ([float(s.split('=')[1].replace('V', ''))] for the voltage,
    [int(s.split('=')[1])] for the clock), or the exception the parsing
    raises. *)
Inductive completed (A : Type) : Type :=
  | Completed (returncode : Z) (parsed : outcome A).
Arguments Completed {A} returncode parsed.

(** The metric sources of the host, as one collection finds them. *)
Record sources : Type := {
  thermal_zone0 : outcome Z;               (* [int(f.read().strip())] *)
  cpu_percent : outcome Q;                 (* [psutil.cpu_percent(interval=1)] *)
  virtual_memory : outcome Q;              (* [psutil.virtual_memory().percent] *)
  disk_usage : outcome Q;                  (* [psutil.disk_usage('/').percent] *)
  net_io_counters : outcome (Z * Z);       (* [bytes_sent], [bytes_recv] *)
  getloadavg : outcome (Q * Q * Q);        (* [os.getloadavg()] *)
  time_time : Q;                           (* [time.time()] *)
  boot_time : outcome Q;                   (* [psutil.boot_time()] *)
  measure_volts : outcome (completed Q);   (* [vcgencmd measure_volts core] *)
  measure_clock : outcome (completed Z);   (* [vcgencmd measure_clock arm] *)
  utcnow : string                          (* [datetime.utcnow().isoformat()] *)
}.

Record network : Type := { upload : Q; download : Q }.
Record load : Type := { load_1m : Q; load_5m : Q; load_15m : Q }.

Definition get_cpu_temperature (s : sources) : io Q :=
  try_except
    (raw <- from_source (thermal_zone0 s) ;;
     ret (inject_Z raw / 1000)%Q)
    is_Exception
    (fun e => log ERROR "Error reading CPU temperature" ;;; ret 0%Q).

Definition get_cpu_usage (s : sources) : io Q :=
  try_except
    (from_source (cpu_percent s))
    is_Exception
    (fun e => log ERROR "Error reading CPU usage" ;;; ret 0%Q).

Definition get_memory_usage (s : sources) : io Q :=
  try_except
    (from_source (virtual_memory s))
    is_Exception
    (fun e => log ERROR "Error reading memory usage" ;;; ret 0%Q).

Definition get_disk_usage (s : sources) : io Q :=
  try_except
    (from_source (disk_usage s))
    is_Exception
    (fun e => log ERROR "Error reading disk usage" ;;; ret 0%Q).

Definition get_network_usage (s : sources) : io network :=
  try_except
    (net_io <- from_source (net_io_counters s) ;;
     ret {| upload := (inject_Z (fst net_io) / 1024 / 1024)%Q;
            download := (inject_Z (snd net_io) / 1024 / 1024)%Q |})
    is_Exception
    (fun e =>
       log ERROR "Error reading network usage" ;;;
       ret {| upload := 0%Q; download := 0%Q |}).

Definition get_system_load (s : sources) : io load :=
  try_except
    (load_avg <- from_source (getloadavg s) ;;
     ret {| load_1m := fst (fst load_avg);
            load_5m := snd (fst load_avg);
            load_15m := snd load_avg |})
    is_Exception
    (fun e =>
       log ERROR "Error reading system load" ;;;
       ret {| load_1m := 0%Q; load_5m := 0%Q; load_15m := 0%Q |}).

Definition get_uptime (s : sources) : io Q :=
  try_except
    (boot <- from_source (boot_time s) ;;
     ret (time_time s - boot)%Q)
    is_Exception
    (fun e => log ERROR "Error reading uptime" ;;; ret 0%Q).

Definition get_cpu_voltage (s : sources) : io (option Q) :=
  try_except
    (result <- from_source (measure_volts s) ;;
     match result with
     | Completed returncode parsed =>
         if (returncode =? 0)%Z then
           (voltage <- from_source parsed ;; ret (Some voltage))
         else ret None
     end)
    is_Exception
    (fun e => log DEBUG "Could not read CPU voltage" ;;; ret None).

Definition get_cpu_frequency (s : sources) : io (option Q) :=
  try_except
    (result <- from_source (measure_clock s) ;;
     match result with
     | Completed returncode parsed =>
         if (returncode =? 0)%Z then
           (hz <- from_source parsed ;; ret (Some (inject_Z hz / 1000000)%Q))
         else ret None
     end)
    is_Exception
    (fun e => log DEBUG "Could not read CPU frequency" ;;; ret None).

Definition collect_health_data (self : t) (s : sources) : io (option (gmap string json)) :=
  try_except
    (cpu_temp <- get_cpu_temperature s ;;
     cpu_usage <- get_cpu_usage s ;;
     memory_usage <- get_memory_usage s ;;
     disk_usage <- get_disk_usage s ;;
     network_usage <- get_network_usage s ;;
     load_avg <- get_system_load s ;;
     uptime <- get_uptime s ;;
     voltage <- get_cpu_voltage s ;;
     frequency <- get_cpu_frequency s ;;
     let health_data : gmap string json :=
       list_to_map
         [("deviceId", JStr (device_id self));
          ("cpuTemperature", JNum (round cpu_temp 2));
          ("cpuUsage", JNum (round cpu_usage 2));
          ("memoryUsage", JNum (round memory_usage 2));
          ("diskUsage", JNum (round disk_usage 2));
          ("networkUpload", JNum (round (upload network_usage) 2));
          ("networkDownload", JNum (round (download network_usage) 2));
          ("uptime", JNum (round uptime 2));
          ("loadAverage1m", JNum (round (load_1m load_avg) 2));
          ("loadAverage5m", JNum (round (load_5m load_avg) 2));
          ("loadAverage15m", JNum (round (load_15m load_avg) 2));
          ("timestamp", JStr (utcnow s +:+ "Z"));
          ("location", location)] in
     let health_data :=
       match voltage with
       | Some voltage => <["voltage" := JNum (round voltage 3)]> health_data
       | None => health_data
       end in
     let health_data :=
       match frequency with
       | Some frequency => <["frequency" := JNum (round frequency 0)]> health_data
       | None => health_data
       end in
     log INFO "Health data collected" ;;;
     ret (Some health_data))
    is_Exception
    (fun e => log ERROR "Error collecting health data" ;;; ret None).

(** Truth value of [health_data]: neither [None] nor an empty dict. *)
Definition truthy (health_data : option (gmap string json)) : bool :=
  match health_data with
  | Some d => negb (size d =? 0)%nat
  | None => false
  end.

Definition send_health_data (self : t) (health_data : option (gmap string json))
    (api : http_result) : io bool :=
  match health_data with
  | Some d =>
      if negb (truthy health_data) then ret false
      else
        try_except
          (response <- session_post (api_url self +:+ "/pi-health/readings") d api ;;
           if (fst response =? 201)%Z then
             (log INFO "Health data sent to API successfully" ;;; ret true)
           else
             (log ERROR "API request failed" ;;; ret false))
          is_RequestException
          (fun e => log ERROR "Failed to send health data to API" ;;; ret false)
  | None => ret false
  end.

Definition test_api_connection (self : t) (api : http_result) : io bool :=
  try_except
    (response <- session_get (api_url self +:+ "/pi-health/health") api ;;
     if (fst response =? 200)%Z then
       (log INFO "API connection successful" ;;; ret true)
     else
       (log ERROR "API health check failed" ;;; ret false))
    is_RequestException
    (fun e => log ERROR "Cannot connect to API" ;;; ret false).

Definition get_device_status (self : t) (api : http_result) : io (option string) :=
  try_except
    (response <- session_get (api_url self +:+ "/pi-health/status/" +:+ device_id self) api ;;
     if (fst response =? 200)%Z then
       (log INFO "Device status" ;;; ret (Some (snd response)))
     else
       (log WARNING "Could not get device status" ;;; ret None))
    is_RequestException
    (fun e => log ERROR "Failed to get device status" ;;; ret None).

Definition get_recommendations (self : t) (api : http_result) : io (option string) :=
  try_except
    (response <- session_get
       (api_url self +:+ "/pi-health/recommendations/" +:+ device_id self) api ;;
     if (fst response =? 200)%Z then
       (log INFO "System recommendations" ;;; ret (Some (snd response)))
     else
       (log WARNING "Could not get recommendations" ;;; ret None))
    is_RequestException
    (fun e => log ERROR "Failed to get recommendations" ;;; ret None).

(** The outside world of one run. *)
Record env : Type := {
  health_probe : http_result;               (* GET /pi-health/health *)
  initial_status : http_result;
  initial_recommendations : http_result;
  metric_sources : nat -> sources;          (* per cycle *)
  api : nat -> http_result;                 (* the POST of a cycle *)
  clock : nat -> Q;                         (* [time.time()] at the sidecar test *)
  status : nat -> http_result;
  recommendations : nat -> http_result
}.

(** The sidecar test of a cycle: [time.time() % 300 < self.interval]. *)
Definition sidecar_due (self : t) (now : Q) : bool :=
  Qltb (py_mod now 300) (inject_Z (interval self)).

(** The body of [while True]. *)
Definition cycle_body (self : t) (w : env) (cycle : nat) : io unit :=
  health_data <- collect_health_data self (metric_sources w cycle) ;;
  (if truthy health_data then
     success <- send_health_data self health_data (api w cycle) ;;
     if success then
       if sidecar_due self (clock w cycle) then
         (get_device_status self (status w cycle) ;;;
          get_recommendations self (recommendations w cycle) ;;;
          ret tt)
       else ret tt
     else log WARNING "Failed to send health data to API, but continuing..."
   else ret tt) ;;;
  time_sleep (inject_Z (interval self)).

(** [while True]: [fuel] cycles complete, then the operator's interrupt
    arrives. *)
Fixpoint while_true (self : t) (w : env) (cycle fuel : nat) : io unit :=
  match fuel with
  | O => raise KeyboardInterrupt
  | S fuel' =>
      cycle_body self w cycle ;;;
      while_true self w (S cycle) fuel'
  end.

Definition run (self : t) (w : env) (fuel : nat) : io unit :=
  log INFO "Starting Raspberry Pi 4 health monitoring..." ;;;
  log INFO "API URL" ;;;
  log INFO "Device ID" ;;;
  log INFO "Monitoring interval" ;;;
  ok <- test_api_connection self (health_probe w) ;;
  if negb ok then
    (log ERROR "Cannot connect to API. Exiting." ;;; ret tt)
  else
    (get_device_status self (initial_status w) ;;;
     get_recommendations self (initial_recommendations w) ;;;
     try_finally
       (try_excepts (while_true self w 0 fuel)
          [(is_KeyboardInterrupt, fun _ => log INFO "Health monitoring stopped by user");
           (is_Exception, fun _ => log ERROR "Unexpected error")])
       (log INFO "Health monitoring stopped")).

(** [args] are the parsed command-line arguments, [euid] is
    [os.geteuid()]. *)
Definition main (args : t) (euid : Z) (w : env) (fuel : nat) : io unit :=
  (if negb (euid =? 0)%Z then
     log WARNING "This script should be run as root for full system access"
   else ret tt) ;;;
  let monitor := {| api_url := api_url args; device_id := device_id args;
                    interval := interval args |} in
  run monitor w fuel.

End PiHealthMonitor.

(** ** Names, modules and the random source of the simulators *)

(** The part of the [math] module the simulators use. *)
Record math_module : Type := { sin : Q -> Q; pi : Q }.

(** Objects a name can be bound to: the [math] module, or anything else. *)
Inductive pyobj : Type :=
  | Module_math (m : math_module)
  | Opaque.

(** A name that is not assigned in a function body is looked up in the
    globals of the module that defines the function, then in the
    builtins; a miss is a [NameError]. *)
Definition builtins : gmap string pyobj :=
  list_to_map
    [("max", Opaque); ("min", Opaque); ("round", Opaque); ("len", Opaque);
     ("int", Opaque); ("float", Opaque); ("open", Opaque); ("range", Opaque);
     ("Exception", Opaque); ("KeyboardInterrupt", Opaque); ("__import__", Opaque)].

Definition load_global (globals : gmap string pyobj) (name : string) : io pyobj :=
  match globals !! name with
  | Some o => ret o
  | None =>
      match builtins !! name with
      | Some o => ret o
      | None => raise (NameError name)
      end
  end.

(** Attribute access [o.sin], [o.pi]. *)
Definition as_math (o : pyobj) : io math_module :=
  match o with
  | Module_math m => ret m
  | Opaque => raise AttributeError
  end.

(** A rational stand-in for the C library behind [import math], to run the
    model on concrete inputs: [pi] to sixteen digits, and the sine by its
    Taylor polynomial of degree 15 after the angle has been brought into
    [-pi/2, pi/2] (the simulators ask for angles between [-2*pi/3] and
    [17*pi/12]). *)
Fixpoint sin_series (x : Q) (terms : nat) (k : Z) (term : Q) : Q :=
  match terms with
  | O => 0
  | S n =>
      Qred (term + sin_series x n (k + 2)
                     (Qred (- term * x * x / inject_Z ((k + 1) * (k + 2)))))
  end.

Definition libm_pi : Q := 3141592653589793 # 1000000000000000.

Definition libm_sin (x : Q) : Q :=
  let y :=
    if Qltb (libm_pi / 2) x then
      if Qltb (3 * libm_pi / 2) x then (x - 2 * libm_pi)%Q else (libm_pi - x)%Q
    else if Qltb x (- (libm_pi / 2)) then (- libm_pi - x)%Q
    else x in
  sin_series (Qred y) 8 1 (Qred y).

Definition libm : math_module := {| sin := libm_sin; pi := libm_pi |}.

(** The random source: the stream of values [random.random()] returns
    for the seed, and how many were drawn. *)
Record rng : Type := { stream : nat -> Q; pos : nat }.

Definition random_random (g : rng) : Q * rng :=
  (stream g (pos g), {| stream := stream g; pos := S (pos g) |}).

(** [random.uniform(a, b)] is [a + (b - a) * random()]. *)
Definition random_uniform (a b : Q) (g : rng) : Q * rng :=
  let '(u, g) := random_random g in
  ((a + (b - a) * u)%Q, g).

(** The wall clock at one instant, as the three calls read it. *)
Record clock : Type := {
  now_hour : Z;        (* [datetime.now().hour] *)
  time_time : Q;       (* [time.time()] *)
  utcnow : string      (* [datetime.utcnow().isoformat()] *)
}.

(** ** test_dht11_integration.py *)

Module DHT11Simulator.

Record t : Type := {
  api_url : string;
  device_id : string;
  interval : Z
}.

(** The names bound at module level when [main()] runs. *)
Definition module_globals : gmap string pyobj :=
  list_to_map
    [("__name__", Opaque); ("__doc__", Opaque); ("__file__", Opaque);
     ("requests", Opaque); ("json", Opaque); ("time", Opaque);
     ("random", Opaque); ("argparse", Opaque); ("logging", Opaque);
     ("datetime", Opaque); ("sys", Opaque); ("logger", Opaque);
     ("DHT11Simulator", Opaque); ("main", Opaque)].

Definition generate_realistic_data (self : t) (globals : gmap string pyobj)
    (c : clock) (g : rng) : io (Q * Q * rng) :=
  let base_temp := 22%Q in
  let base_humidity := 45%Q in
  _ <- load_global globals "datetime" ;;
  let hour := inject_Z (now_hour c) in
  math <- (o <- load_global globals "math" ;; as_math o) ;;
  let temp_variation := (3 * sin math ((hour - 6) * pi math / 12))%Q in
  let humidity_variation := (-10 * sin math ((hour - 6) * pi math / 12))%Q in
  _ <- load_global globals "random" ;;
  let '(temp_noise, g) := random_uniform (-0.5) 0.5 g in
  let '(humidity_noise, g) := random_uniform (-1) 1 g in
  let temperature := (base_temp + temp_variation + temp_noise)%Q in
  let humidity := (base_humidity + humidity_variation + humidity_noise)%Q in
  let temperature := py_max (-10) (py_min 50 temperature) in
  let humidity := py_max 20 (py_min 80 humidity) in
  ret (round temperature 1, round humidity 1, g).

Definition send_data (self : t) (temperature humidity : Q) (utcnow : string)
    (api : http_result) : io bool :=
  let payload : gmap string json :=
    list_to_map
      [("deviceId", JStr (device_id self));
       ("temperature", JNum temperature);
       ("humidity", JNum humidity);
       ("timestamp", JStr (utcnow +:+ "Z"));
       ("gpioPin", JInt 4);
       ("sensorType", JStr "DHT11");
       ("location", location)] in
  try_except
    (response <- session_post (api_url self +:+ "/dht11-sensor/readings") payload api ;;
     if (fst response =? 201)%Z then
       (log INFO "Data sent successfully" ;;; ret true)
     else
       (log ERROR "API request failed" ;;; ret false))
    is_RequestException
    (fun e => log ERROR "Failed to send data to API" ;;; ret false).

Definition test_api_connection (self : t) (api : http_result) : io bool :=
  try_except
    (response <- session_get (api_url self +:+ "/dht11-sensor/health") api ;;
     if (fst response =? 200)%Z then
       (log INFO "API connection successful" ;;; ret true)
     else
       (log ERROR "API health check failed" ;;; ret false))
    is_RequestException
    (fun e => log ERROR "Cannot connect to API" ;;; ret false).

Definition get_latest_reading (self : t) (api : http_result) : io (option string) :=
  try_except
    (response <- session_get
       (api_url self +:+ "/dht11-sensor/readings/latest/" +:+ device_id self) api ;;
     if (fst response =? 200)%Z then
       (log INFO "Latest reading" ;;; ret (Some (snd response)))
     else
       (log WARNING "Could not get latest reading" ;;; ret None))
    is_RequestException
    (fun e => log ERROR "Failed to get latest reading" ;;; ret None).

Definition get_stats (self : t) (api : http_result) : io (option string) :=
  try_except
    (response <- session_get
       (api_url self +:+ "/dht11-sensor/stats/" +:+ device_id self +:+ "?hours=1") api ;;
     if (fst response =? 200)%Z then
       (log INFO "Stats" ;;; ret (Some (snd response)))
     else
       (log WARNING "Could not get stats" ;;; ret None))
    is_RequestException
    (fun e => log ERROR "Failed to get stats" ;;; ret None).

(** The outside world of one run. *)
Record env : Type := {
  health_probe : http_result;               (* GET /dht11-sensor/health *)
  initial_stats : http_result;
  wall : nat -> clock;                      (* the clock, per cycle *)
  api : nat -> http_result;                 (* the POST of a cycle *)
  latest : nat -> http_result;
  stats : nat -> http_result;
  seed : rng
}.

(** The body of [while True]; the random source is threaded through. *)
Definition cycle_body (self : t) (globals : gmap string pyobj) (w : env)
    (cycle : nat) (g : rng) : io rng :=
  data <- generate_realistic_data self globals (wall w cycle) g ;;
  let '(temperature, humidity, g) := data in
  success <- send_data self temperature humidity (utcnow (wall w cycle)) (api w cycle) ;;
  g <- (if success : bool then
          let '(u, g) := random_random g in
          if Qltb u 0.1 then
            (get_latest_reading self (latest w cycle) ;;;
             get_stats self (stats w cycle) ;;;
             ret g)
          else ret g
        else ret g) ;;
  time_sleep (inject_Z (interval self)) ;;;
  ret g.

(** [while True]: [fuel] cycles complete, then the operator's interrupt
    arrives. *)
Fixpoint while_true (self : t) (globals : gmap string pyobj) (w : env)
    (cycle fuel : nat) (g : rng) : io unit :=
  match fuel with
  | O => raise KeyboardInterrupt
  | S fuel' =>
      g <- cycle_body self globals w cycle g ;;
      while_true self globals w (S cycle) fuel' g
  end.

Definition run (self : t) (globals : gmap string pyobj) (w : env) (fuel : nat)
    : io unit :=
  log INFO "Starting DHT11 sensor simulation..." ;;;
  log INFO "API URL" ;;;
  log INFO "Device ID" ;;;
  log INFO "Interval" ;;;
  ok <- test_api_connection self (health_probe w) ;;
  if negb ok then
    (log ERROR "Cannot connect to API. Exiting." ;;; ret tt)
  else
    (get_stats self (initial_stats w) ;;;
     try_excepts (while_true self globals w 0 fuel (seed w))
       [(is_KeyboardInterrupt, fun _ => log INFO "Simulation stopped by user");
        (is_Exception, fun _ => log ERROR "Unexpected error")]).

(** [import math] inside [main] binds the name in the frame of [main];
    the methods of [DHT11Simulator] run with the globals of the module. *)
Definition main (args : t) (w : env) (fuel : nat) : io unit :=
  let main_locals : gmap string pyobj :=
    <["math" := Module_math libm]> (<["args" := Opaque]> {["parser" := Opaque]}) in
  let simulator := {| api_url := api_url args; device_id := device_id args;
                      interval := interval args |} in
  let main_locals := <["simulator" := Opaque]> main_locals in
  run simulator module_globals w fuel.

End DHT11Simulator.

(** ** test_pi_health_integration.py *)

Module PiHealthSimulator.

Record t : Type := {
  api_url : string;
  device_id : string;
  interval : Z
}.

(** The names bound at module level when [main()] runs; [import math] is
    among the imports at the top of this script. *)
Definition module_globals : gmap string pyobj :=
  list_to_map
    [("__name__", Opaque); ("__doc__", Opaque); ("__file__", Opaque);
     ("requests", Opaque); ("json", Opaque); ("time", Opaque);
     ("random", Opaque); ("argparse", Opaque); ("logging", Opaque);
     ("math", Module_math libm);
     ("datetime", Opaque); ("sys", Opaque); ("logger", Opaque);
     ("PiHealthSimulator", Opaque); ("main", Opaque)].

(** The numbers of one synthetic sample, before they are put in the
    payload. *)
Record sample : Type := {
  cpu_temperature : Q;
  cpu_usage : Q;
  memory_usage : Q;
  disk_usage : Q;
  network_upload : Q;
  network_download : Q;
  uptime : Q;
  load_1m : Q;
  load_5m : Q;
  load_15m : Q;
  voltage : Q;
  frequency : Q
}.

(** The statements of [generate_realistic_health_data] up to the
    [return], given the [math] module the name resolves to. *)
Definition synthesize (math : math_module) (c : clock) (g : rng) : sample * rng :=
  let base_cpu_temp := 45%Q in
  let base_cpu_usage := 30%Q in
  let base_memory_usage := 50%Q in
  let base_disk_usage := 60%Q in
  let hour := inject_Z (now_hour c) in
  let temp_variation := (10 * sin math ((hour - 6) * pi math / 12))%Q in
  let usage_variation := (20 * sin math ((hour - 8) * pi math / 12))%Q in
  let '(temp_noise, g) := random_uniform (-2) 2 g in
  let '(usage_noise, g) := random_uniform (-5) 5 g in
  let cpu_temperature := (base_cpu_temp + temp_variation + temp_noise)%Q in
  let cpu_usage := (base_cpu_usage + usage_variation + usage_noise)%Q in
  let '(memory_noise, g) := random_uniform (-3) 3 g in
  let memory_usage := (base_memory_usage + (usage_variation * 0.8) + memory_noise)%Q in
  let '(disk_noise, g) := random_uniform (-2) 2 g in
  let disk_usage := (base_disk_usage + disk_noise)%Q in
  let cpu_temperature := py_max 20 (py_min 85 cpu_temperature) in
  let cpu_usage := py_max 5 (py_min 95 cpu_usage) in
  let memory_usage := py_max 20 (py_min 90 memory_usage) in
  let disk_usage := py_max 40 (py_min 95 disk_usage) in
  let '(noise_1m, g) := random_uniform (-0.5) 0.5 g in
  let load_1m := py_max 0.1 (cpu_usage / 100 * 2 + noise_1m)%Q in
  let '(noise_5m, g) := random_uniform (-0.2) 0.2 g in
  let load_5m := (load_1m * 0.8 + noise_5m)%Q in
  let '(noise_15m, g) := random_uniform (-0.1) 0.1 g in
  let load_15m := (load_5m * 0.9 + noise_15m)%Q in
  let '(network_upload, g) := random_uniform 0 10 g in
  let '(network_download, g) := random_uniform 0 20 g in
  let '(uptime_noise, g) := random_uniform (-3600) 3600 g in
  let uptime := (time_time c + uptime_noise)%Q in
  let '(voltage_noise, g) := random_uniform (-0.2) 0.2 g in
  let voltage := (4.8 + voltage_noise)%Q in
  let '(frequency_noise, g) := random_uniform (-100) 100 g in
  let frequency := (1400 + frequency_noise)%Q in
  ({| cpu_temperature := cpu_temperature; cpu_usage := cpu_usage;
      memory_usage := memory_usage; disk_usage := disk_usage;
      network_upload := network_upload; network_download := network_download;
      uptime := uptime; load_1m := load_1m; load_5m := load_5m;
      load_15m := load_15m; voltage := voltage; frequency := frequency |}, g).

(** The dictionary of the [return] statement. *)
Definition health_data_of (self : t) (c : clock) (s : sample) : gmap string json :=
  list_to_map
    [("deviceId", JStr (device_id self));
     ("cpuTemperature", JNum (round (cpu_temperature s) 2));
     ("cpuUsage", JNum (round (cpu_usage s) 2));
     ("memoryUsage", JNum (round (memory_usage s) 2));
     ("diskUsage", JNum (round (disk_usage s) 2));
     ("networkUpload", JNum (round (network_upload s) 2));
     ("networkDownload", JNum (round (network_download s) 2));
     ("uptime", JNum (round (uptime s) 2));
     ("loadAverage1m", JNum (round (load_1m s) 2));
     ("loadAverage5m", JNum (round (load_5m s) 2));
     ("loadAverage15m", JNum (round (load_15m s) 2));
     ("voltage", JNum (round (voltage s) 3));
     ("frequency", JNum (round (frequency s) 0));
     ("timestamp", JStr (utcnow c +:+ "Z"));
     ("location", location)].

Definition generate_realistic_health_data (self : t) (globals : gmap string pyobj)
    (c : clock) (g : rng) : io (gmap string json * rng) :=
  _ <- load_global globals "datetime" ;;
  math <- (o <- load_global globals "math" ;; as_math o) ;;
  _ <- load_global globals "random" ;;
  _ <- load_global globals "time" ;;
  let '(s, g) := synthesize math c g in
  ret (health_data_of self c s, g).

Definition send_health_data (self : t) (health_data : gmap string json)
    (api : http_result) : io bool :=
  try_except
    (response <- session_post (api_url self +:+ "/pi-health/readings") health_data api ;;
     if (fst response =? 201)%Z then
       (log INFO "Health data sent successfully" ;;; ret true)
     else
       (log ERROR "API request failed" ;;; ret false))
    is_RequestException
    (fun e => log ERROR "Failed to send health data to API" ;;; ret false).

Definition test_api_connection (self : t) (api : http_result) : io bool :=
  try_except
    (response <- session_get (api_url self +:+ "/pi-health/health") api ;;
     if (fst response =? 200)%Z then
       (log INFO "API connection successful" ;;; ret true)
     else
       (log ERROR "API health check failed" ;;; ret false))
    is_RequestException
    (fun e => log ERROR "Cannot connect to API" ;;; ret false).

Definition get_device_status (self : t) (api : http_result) : io (option string) :=
  try_except
    (response <- session_get (api_url self +:+ "/pi-health/status/" +:+ device_id self) api ;;
     if (fst response =? 200)%Z then
       (log INFO "Device status" ;;; ret (Some (snd response)))
     else
       (log WARNING "Could not get device status" ;;; ret None))
    is_RequestException
    (fun e => log ERROR "Failed to get device status" ;;; ret None).

Definition get_recommendations (self : t) (api : http_result) : io (option string) :=
  try_except
    (response <- session_get
       (api_url self +:+ "/pi-health/recommendations/" +:+ device_id self) api ;;
     if (fst response =? 200)%Z then
       (log INFO "System recommendations" ;;; ret (Some (snd response)))
     else
       (log WARNING "Could not get recommendations" ;;; ret None))
    is_RequestException
    (fun e => log ERROR "Failed to get recommendations" ;;; ret None).

Definition get_critical_alerts (self : t) (api : http_result) : io (option string) :=
  try_except
    (response <- session_get (api_url self +:+ "/pi-health/alerts/critical") api ;;
     if (fst response =? 200)%Z then
       (log WARNING "Critical alerts" ;;; ret (Some (snd response)))
     else
       (log WARNING "Could not get critical alerts" ;;; ret None))
    is_RequestException
    (fun e => log ERROR "Failed to get critical alerts" ;;; ret None).

(** The outside world of one run. *)
Record env : Type := {
  health_probe : http_result;               (* GET /pi-health/health *)
  initial_status : http_result;
  initial_recommendations : http_result;
  wall : nat -> clock;                      (* the clock, per cycle *)
  api : nat -> http_result;                 (* the POST of a cycle *)
  status : nat -> http_result;
  recommendations : nat -> http_result;
  alerts : nat -> http_result;
  seed : rng
}.

(** The body of [while True]; the random source is threaded through. *)
Definition cycle_body (self : t) (globals : gmap string pyobj) (w : env)
    (cycle : nat) (g : rng) : io rng :=
  data <- generate_realistic_health_data self globals (wall w cycle) g ;;
  let '(health_data, g) := data in
  success <- send_health_data self health_data (api w cycle) ;;
  g <- (if success : bool then
          let '(u, g) := random_random g in
          if Qltb u 0.1 then
            (get_device_status self (status w cycle) ;;;
             get_recommendations self (recommendations w cycle) ;;;
             get_critical_alerts self (alerts w cycle) ;;;
             ret g)
          else ret g
        else ret g) ;;
  time_sleep (inject_Z (interval self)) ;;;
  ret g.

(** [while True]: [fuel] cycles complete, then the operator's interrupt
    arrives. *)
Fixpoint while_true (self : t) (globals : gmap string pyobj) (w : env)
    (cycle fuel : nat) (g : rng) : io unit :=
  match fuel with
  | O => raise KeyboardInterrupt
  | S fuel' =>
      g <- cycle_body self globals w cycle g ;;
      while_true self globals w (S cycle) fuel' g
  end.

Definition run (self : t) (globals : gmap string pyobj) (w : env) (fuel : nat)
    : io unit :=
  log INFO "Starting Pi health simulation..." ;;;
  log INFO "API URL" ;;;
  log INFO "Device ID" ;;;
  log INFO "Interval" ;;;
  ok <- test_api_connection self (health_probe w) ;;
  if negb ok then
    (log ERROR "Cannot connect to API. Exiting." ;;; ret tt)
  else
    (get_device_status self (initial_status w) ;;;
     get_recommendations self (initial_recommendations w) ;;;
     try_excepts (while_true self globals w 0 fuel (seed w))
       [(is_KeyboardInterrupt, fun _ => log INFO "Health simulation stopped by user");
        (is_Exception, fun _ => log ERROR "Unexpected error")]).

Definition main (args : t) (w : env) (fuel : nat) : io unit :=
  let simulator := {| api_url := api_url args; device_id := device_id args;
                      interval := interval args |} in
  run simulator module_globals w fuel.

End PiHealthSimulator.

(** * Specification vocabulary *)

(** Number of events of a trace that satisfy a test. *)
Fixpoint count (p : event -> bool) (t : list event) : nat :=
  match t with
  | [] => 0
  | ev :: rest => (if p ev then 1 else 0) + count p rest
  end.

Definition is_read_temperature (ev : event) : bool :=
  match ev with ReadTemperature => true | _ => false end.

Definition is_read_humidity (ev : event) : bool :=
  match ev with ReadHumidity => true | _ => false end.

Definition is_post (ev : event) : bool :=
  match ev with Post _ _ => true | _ => false end.

Definition is_get (ev : event) : bool :=
  match ev with Get _ => true | _ => false end.

Definition is_sleep (ev : event) : bool :=
  match ev with Sleep _ => true | _ => false end.

(** The declared range of a sensor reading. *)
Definition in_range (temperature humidity : Q) : Prop :=
  (-100 <= temperature)%Q /\ (temperature <= 100)%Q /\
  (0 <= humidity)%Q /\ (humidity <= 100)%Q.

(** A sensor payload whose temperature and humidity are in range. *)
Definition payload_in_range (p : gmap string json) : Prop :=
  exists temperature humidity,
    p !! "temperature" = Some (JNum temperature) /\
    p !! "humidity" = Some (JNum humidity) /\
    in_range temperature humidity.

(** Every reading a trace transmits is in range. *)
Definition transmits_in_range (t : list event) : Prop :=
  Forall (fun ev => match ev with
                    | Post _ p => payload_in_range p
                    | _ => True
                    end) t.

(** The verdict of the validation on what the driver delivers in one
    attempt. *)
Inductive verdict : Type :=
  | Valid (temperature humidity : Q)
  | Missing
  | OutOfRange
  | SourceError (e : exn).

Definition classify (p : DHT11Sensor.probe) : verdict :=
  match DHT11Sensor.temperature p with
  | DHT11Sensor.Throws e => SourceError e
  | DHT11Sensor.Yields t =>
      match DHT11Sensor.humidity p with
      | DHT11Sensor.Throws e => SourceError e
      | DHT11Sensor.Yields h =>
          match t, h with
          | Some t, Some h =>
              if Qltb t (-100) || Qltb 100 t || Qltb h 0 || Qltb 100 h
              then OutOfRange else Valid t h
          | _, _ => Missing
          end
      end
  end.

(** An attempt that yields no reading and lets the loop go on. *)
Definition rejected (p : DHT11Sensor.probe) : Prop :=
  match classify p with
  | Valid _ _ => False
  | Missing | OutOfRange => True
  | SourceError e => is_Exception e = true
  end.

(** A source that raises. *)
Definition failed {A} (o : outcome A) : Prop := exists e, o = Raised e.

(** A source whose failure, if any, is an [Exception] (not an interrupt). *)
Definition caught {A} (o : outcome A) : Prop :=
  match o with
  | Raised e => is_Exception e = true
  | Returns _ => True
  end.

Definition caught_completed {A} (o : outcome (PiHealthMonitor.completed A)) : Prop :=
  match o with
  | Raised e => is_Exception e = true
  | Returns (PiHealthMonitor.Completed _ parsed) => caught parsed
  end.

(** No interrupt arrives while the metrics are collected. *)
Definition no_interrupt (s : PiHealthMonitor.sources) : Prop :=
  caught (PiHealthMonitor.thermal_zone0 s) /\
  caught (PiHealthMonitor.cpu_percent s) /\
  caught (PiHealthMonitor.virtual_memory s) /\
  caught (PiHealthMonitor.disk_usage s) /\
  caught (PiHealthMonitor.net_io_counters s) /\
  caught (PiHealthMonitor.getloadavg s) /\
  caught (PiHealthMonitor.boot_time s) /\
  caught_completed (PiHealthMonitor.measure_volts s) /\
  caught_completed (PiHealthMonitor.measure_clock s).

(** What a [vcgencmd] measurement makes available: the parsed value of a
    call that ran, returned 0 and printed something that parses. *)
Definition available {A} (o : outcome (PiHealthMonitor.completed A)) : option A :=
  match o with
  | Returns (PiHealthMonitor.Completed returncode (Returns v)) =>
      if (returncode =? 0)%Z then Some v else None
  | _ => None
  end.

Definition is_log (ev : event) : bool :=
  match ev with Log _ _ => true | _ => false end.

(** A trace of log records only: nothing read, sent, fetched or slept. *)
Definition only_logs (t : list event) : Prop :=
  Forall (fun ev => is_log ev = true) t.

(** The API accepts the sample: status code 201. *)
Definition accepted (r : http_result) : Prop := exists text, r = Response 201 text.



(** The sidecar queries run in the given cycle. *)
Definition sidecar_invoked (self : PiHealthMonitor.t) (w : PiHealthMonitor.env)
    (cycle : nat) : Prop :=
  (0 < count is_get (trace_of (PiHealthMonitor.cycle_body self w cycle)))%nat.

(** A preflight probe that fails: a status other than 200, or an
    exception of the transport. *)
Definition probe_failed (r : http_result) : Prop :=
  match r with
  | Response code _ => code <> 200%Z
  | Fails e => is_RequestException e = true
  end.

(** A request that is answered or fails at the transport level. *)
Definition transport_level (r : http_result) : Prop :=
  match r with
  | Response _ _ => True
  | Fails e => is_RequestException e = true
  end.

(** The numbers of a host sample are within the declared clamp ranges. *)
Definition host_sample_in_range (d : gmap string json) : Prop :=
  exists cpu_temperature cpu_usage memory_usage disk_usage load_1m : Q,
    d !! "cpuTemperature" = Some (JNum cpu_temperature) /\
    d !! "cpuUsage" = Some (JNum cpu_usage) /\
    d !! "memoryUsage" = Some (JNum memory_usage) /\
    d !! "diskUsage" = Some (JNum disk_usage) /\
    d !! "loadAverage1m" = Some (JNum load_1m) /\
    (20 <= cpu_temperature <= 85)%Q /\
    (5 <= cpu_usage <= 95)%Q /\
    (20 <= memory_usage <= 90)%Q /\
    (40 <= disk_usage <= 95)%Q /\
    (0.1 <= load_1m)%Q.

(** A sleep of the given length. *)
Definition is_sleep_of (secs : Q) (ev : event) : bool :=
  match ev with Sleep q => Qeq_bool q secs | _ => false end.

(** Every sleep of the trace lasts one second. *)
Definition sleeps_one_second (t : list event) : Prop :=
  Forall (fun ev => match ev with Sleep q => q = 1%Q | _ => True end) t.

(** A property read that fails, if at all, with an [Exception]. *)
Definition tame_read (r : DHT11Sensor.read) : Prop :=
  match r with
  | DHT11Sensor.Throws e => is_Exception e = true
  | DHT11Sensor.Yields _ => True
  end.

Definition tame (p : DHT11Sensor.probe) : Prop :=
  tame_read (DHT11Sensor.temperature p) /\ tame_read (DHT11Sensor.humidity p).

(** The keys of the sensor payload. *)
Definition sensor_payload_keys : gset string :=
  {[ "deviceId"; "temperature"; "humidity"; "timestamp"; "gpioPin";
     "sensorType"; "location" ]}.

(** What a computation does, in figures: its result, and how many events
    of its trace pass each of two tests. *)
Definition tally {A} (p q : event -> bool) (c : io A) (r : outcome A) (n m : nat)
    : Prop :=
  result_of c = r /\ count p (trace_of c) = n /\ count q (trace_of c) = m.

(** A computation that lets no [Exception] escape, and whose value, when
    it returns, satisfies [P]. *)
Definition guarded {A} (P : A -> Prop) (c : io A) : Prop :=
  (forall a, result_of c = Returns a -> P a) /\
  (forall e, result_of c = Raised e -> is_Exception e = false).

(** The keys every host sample has. *)
Definition host_sample_keys : list string :=
  [ "deviceId"; "cpuTemperature"; "cpuUsage"; "memoryUsage"; "diskUsage";
    "networkUpload"; "networkDownload"; "uptime"; "loadAverage1m";
    "loadAverage5m"; "loadAverage15m"; "timestamp"; "location" ].

(** A host sample as [collect_health_data] returns it: a dictionary, not
    [None], with every key of the wire format. *)
Definition complete_sample (d : option (gmap string json)) : Prop :=
  exists health_data : gmap string json,
    d = Some health_data /\
    PiHealthMonitor.truthy d = true /\
    Forall (fun k => is_Some (health_data !! k)) host_sample_keys.


(** A random source as [random.random()] is: every draw in [0, 1). *)
Definition unit_draws (g : rng) : Prop :=
  forall k, (0 <= stream g k)%Q /\ (stream g k < 1)%Q.

(** The number stored under a key of a payload lies between two bounds. *)
Definition field_between (d : gmap string json) (key : string) (lo hi : Q) : Prop :=
  exists x, d !! key = Some (JNum x) /\ (lo <= x)%Q /\ (x <= hi)%Q.

(** ** Example worlds *)

Module Examples.

(** A driver that never has a value. *)
Definition always_missing : DHT11Sensor.driver :=
  fun _ _ => {| DHT11Sensor.temperature := DHT11Sensor.Yields None;
                DHT11Sensor.humidity := DHT11Sensor.Yields None |}.

(** A driver whose first answer of a call is 150 degrees, the later ones
    22.5 degrees at 48 percent. *)
Definition hot_then_fine : DHT11Sensor.driver :=
  fun _ attempt =>
    match attempt with
    | O => {| DHT11Sensor.temperature := DHT11Sensor.Yields (Some 150%Q);
              DHT11Sensor.humidity := DHT11Sensor.Yields (Some 50%Q) |}
    | S _ => {| DHT11Sensor.temperature := DHT11Sensor.Yields (Some 22.5%Q);
                DHT11Sensor.humidity := DHT11Sensor.Yields (Some 48%Q) |}
    end.

(** A driver that always answers 22.5 degrees at 48 percent. *)
Definition fine : DHT11Sensor.driver :=
  fun _ _ => {| DHT11Sensor.temperature := DHT11Sensor.Yields (Some 22.5%Q);
                DHT11Sensor.humidity := DHT11Sensor.Yields (Some 48%Q) |}.

Definition sensor_with (d : DHT11Sensor.driver) : DHT11Sensor.t :=
  {| DHT11Sensor.gpio_pin := 4;
     DHT11Sensor.device_id := DHT11Sensor.DEVICE_ID;
     DHT11Sensor.api_url := DHT11Sensor.API_BASE_URL;
     DHT11Sensor.dht_device := Some d |}.

Definition reading_fine : DHT11Sensor.sensor_data :=
  {| DHT11Sensor.sd_temperature := 22.5;
     DHT11Sensor.sd_humidity := 48;
     DHT11Sensor.sd_timestamp := "2025-01-01T00:00:00Z" |}.

(** The host agent with its default configuration. *)
Definition monitor : PiHealthMonitor.t :=
  {| PiHealthMonitor.api_url := PiHealthMonitor.API_BASE_URL;
     PiHealthMonitor.device_id := PiHealthMonitor.DEVICE_ID;
     PiHealthMonitor.interval := PiHealthMonitor.MONITORING_INTERVAL |}.

Definition small_payload : gmap string json :=
  {[ "deviceId" := JStr PiHealthMonitor.DEVICE_ID ]}.

(** A host whose thermal zone cannot be read and that has no [vcgencmd];
    the other sources answer. *)
Definition degraded_host : PiHealthMonitor.sources :=
  {| PiHealthMonitor.thermal_zone0 := Raised OSError;
     PiHealthMonitor.cpu_percent := Returns 12.5%Q;
     PiHealthMonitor.virtual_memory := Returns 41.3%Q;
     PiHealthMonitor.disk_usage := Returns 67%Q;
     PiHealthMonitor.net_io_counters := Returns (1048576, 2097152)%Z;
     PiHealthMonitor.getloadavg := Returns (0.5, 0.4, 0.3)%Q;
     PiHealthMonitor.time_time := 1700000100;
     PiHealthMonitor.boot_time := Returns 1699990000%Q;
     PiHealthMonitor.measure_volts := Raised OSError;
     PiHealthMonitor.measure_clock :=
       Returns (PiHealthMonitor.Completed 0 (Returns 1500000000%Z));
     PiHealthMonitor.utcnow := "2023-11-14T22:15:00" |}.



(** A world of the host agent in which the API cannot be reached. *)
Definition unreachable_api : PiHealthMonitor.env :=
  {| PiHealthMonitor.health_probe := Fails ConnectionError;
     PiHealthMonitor.initial_status := Fails ConnectionError;
     PiHealthMonitor.initial_recommendations := Fails ConnectionError;
     PiHealthMonitor.metric_sources := fun _ => degraded_host;
     PiHealthMonitor.api := fun _ => Fails ConnectionError;
     PiHealthMonitor.clock := fun cycle => (1700000100 + 31 * inject_Z (Z.of_nat cycle))%Q;
     PiHealthMonitor.status := fun _ => Fails ConnectionError;
     PiHealthMonitor.recommendations := fun _ => Fails ConnectionError |}.

(** A world of the sensor agent in which the driver cannot be created. *)
Definition no_sensor : DHT11Sensor.env :=
  {| DHT11Sensor.hardware := Raised RuntimeError;
     DHT11Sensor.utcnow := fun _ => "2023-11-14T22:15:00";
     DHT11Sensor.api := fun _ => Response 201 "created" |}.

(** A random source whose every draw is one tenth. *)
Definition tenths : rng := {| stream := fun _ => 0.1%Q; pos := 0 |}.

(** Eight o'clock in the morning, 14 November 2023. *)
Definition morning : clock :=
  {| now_hour := 8; time_time := 1700000100; utcnow := "2023-11-14T22:15:00" |}.

Definition sensor_simulator : DHT11Simulator.t :=
  {| DHT11Simulator.api_url := "http://localhost:3000";
     DHT11Simulator.device_id := "pi4-dht11-001";
     DHT11Simulator.interval := 2 |}.

Definition host_simulator : PiHealthSimulator.t :=
  {| PiHealthSimulator.api_url := "http://localhost:3000";
     PiHealthSimulator.device_id := "pi4-device-001";
     PiHealthSimulator.interval := 30 |}.

(** Worlds of the two simulators in which the API answers every request
    with the given status code. *)
Definition sensor_simulator_world (code : Z) : DHT11Simulator.env :=
  {| DHT11Simulator.health_probe := Response code "";
     DHT11Simulator.initial_stats := Response code "";
     DHT11Simulator.wall := fun _ => morning;
     DHT11Simulator.api := fun _ => Response (code + 1) "";
     DHT11Simulator.latest := fun _ => Response code "";
     DHT11Simulator.stats := fun _ => Response code "";
     DHT11Simulator.seed := tenths |}.

Definition host_simulator_world (code : Z) : PiHealthSimulator.env :=
  {| PiHealthSimulator.health_probe := Response code "";
     PiHealthSimulator.initial_status := Response code "";
     PiHealthSimulator.initial_recommendations := Response code "";
     PiHealthSimulator.wall := fun _ => morning;
     PiHealthSimulator.api := fun _ => Response (code + 1) "";
     PiHealthSimulator.status := fun _ => Response code "";
     PiHealthSimulator.recommendations := fun _ => Response code "";
     PiHealthSimulator.alerts := fun _ => Response code "";
     PiHealthSimulator.seed := tenths |}.

(** The globals of the sensor simulator with the [math] module bound in
    addition, as a module-level [import math] would leave them. *)
Definition patched_globals : gmap string pyobj :=
  <["math" := Module_math libm]> DHT11Simulator.module_globals.



(** A driver that raises on every read. *)
Definition always_raising : DHT11Sensor.driver :=
  fun _ _ => {| DHT11Sensor.temperature := DHT11Sensor.Throws RuntimeError;
                DHT11Sensor.humidity := DHT11Sensor.Throws RuntimeError |}.

(** A driver that is missing twice in every call and then answers at the
    upper bounds, 100 degrees at 100 percent. *)
Definition third_time_lucky : DHT11Sensor.driver :=
  fun _ attempt =>
    match attempt with
    | 2%nat => {| DHT11Sensor.temperature := DHT11Sensor.Yields (Some 100%Q);
                  DHT11Sensor.humidity := DHT11Sensor.Yields (Some 100%Q) |}
    | _ => {| DHT11Sensor.temperature := DHT11Sensor.Yields None;
              DHT11Sensor.humidity := DHT11Sensor.Yields None |}
    end.

(** A world of the sensor agent with a sensor that answers on the third
    attempt and an API that accepts every second sample only. *)
Definition flaky_world : DHT11Sensor.env :=
  {| DHT11Sensor.hardware := Returns third_time_lucky;
     DHT11Sensor.utcnow := fun _ => "2023-11-14T22:15:00";
     DHT11Sensor.api := fun cycle =>
       if Nat.even cycle then Response 201 "created" else Fails Timeout |}.

(** A world of the sensor agent in which the sensor is fine and the
    third POST fails inside the client with an exception that is not a
    [RequestException]. *)
Definition broken_client_world : DHT11Sensor.env :=
  {| DHT11Sensor.hardware := Returns fine;
     DHT11Sensor.utcnow := fun _ => "2023-11-14T22:15:00";
     DHT11Sensor.api := fun cycle =>
       if (cycle <? 2)%nat then Response 500 "error" else Fails ValueError |}.



(** A host on which the collection is interrupted by the operator. *)
Definition interrupted_host : PiHealthMonitor.sources :=
  {| PiHealthMonitor.thermal_zone0 := Returns 48312%Z;
     PiHealthMonitor.cpu_percent := Raised KeyboardInterrupt;
     PiHealthMonitor.virtual_memory := Returns 41.3%Q;
     PiHealthMonitor.disk_usage := Returns 67%Q;
     PiHealthMonitor.net_io_counters := Returns (1048576, 3145728)%Z;
     PiHealthMonitor.getloadavg := Returns (0.5, 0.4, 0.3)%Q;
     PiHealthMonitor.time_time := 1700000100;
     PiHealthMonitor.boot_time := Returns 1699990000%Q;
     PiHealthMonitor.measure_volts := Raised OSError;
     PiHealthMonitor.measure_clock := Raised OSError;
     PiHealthMonitor.utcnow := "2023-11-14T22:15:00" |}.

(** The host agent started with [--interval -5]. *)
Definition hasty_monitor : PiHealthMonitor.t :=
  {| PiHealthMonitor.api_url := PiHealthMonitor.API_BASE_URL;
     PiHealthMonitor.device_id := PiHealthMonitor.DEVICE_ID;
     PiHealthMonitor.interval := -5 |}.

(** The host agent started with [--interval 600]. *)
Definition slow_monitor : PiHealthMonitor.t :=
  {| PiHealthMonitor.api_url := PiHealthMonitor.API_BASE_URL;
     PiHealthMonitor.device_id := PiHealthMonitor.DEVICE_ID;
     PiHealthMonitor.interval := 600 |}.

End Examples.

(** ** Proof steps *)

(** Case analysis on the test of a conditional of the goal. *)
Ltac case_if :=
  match goal with
  | |- context [if ?b then _ else _] => destruct b eqn:?
  end.

(** The trace of a getter holds log records only. *)
Ltac only_logs_getter src :=
  destruct src; cbn -[is_Exception];
  try match goal with |- context [is_Exception ?e] => destruct (is_Exception e) end;
  repeat constructor.

(** A handler that logs and returns a default is guarded. *)
Ltac guarded_handler :=
  let e := fresh "e" in
  intros e; split; cbn; [auto; intros ? [= <-]; auto | discriminate].

(** Case analysis on the answer to a GET. *)
Ltac get_cases r :=
  unfold session_get; destruct r as [code text|e]; cbn -[is_RequestException];
  [ destruct (code =? 200)%Z eqn:Ecode; cbn
  | destruct (is_RequestException e) eqn:Eexn; cbn ].


(** * Lemmas on the runtime *)

Lemma Qltb_lt (x y : Q) : Qltb x y = true <-> (x < y)%Q.
Proof.
  unfold Qltb. rewrite negb_true_iff. split.
  - intros H. apply Qnot_le_lt. intros Hle. apply Qle_bool_iff in Hle. congruence.
  - intros H. destruct (Qle_bool y x) eqn:E; [|reflexivity].
    apply Qle_bool_iff in E. exfalso. apply (Qlt_not_le _ _ H E).
Qed.

Lemma Qltb_ge (x y : Q) : Qltb x y = false <-> (y <= x)%Q.
Proof.
  unfold Qltb. rewrite negb_false_iff. apply Qle_bool_iff.
Qed.

Lemma count_app (p : event -> bool) (t1 t2 : list event) :
  count p (t1 ++ t2) = (count p t1 + count p t2)%nat.
Proof.
  induction t1 as [|ev t1 IH]; simpl; [reflexivity|]. rewrite IH. lia.
Qed.

Section Bind.
Context {A B : Type}.
Variables (c : io A) (k : A -> io B).

Lemma bind_returns (a : A) (t : list event) :
  c = (Returns a, t) ->
  bind c k = (result_of (k a), t ++ trace_of (k a)).
Proof. intros ->. unfold bind. destruct (k a); reflexivity. Qed.

Lemma bind_raised (e : exn) (t : list event) :
  c = (Raised e, t) -> bind c k = (Raised e, t).
Proof. intros ->. reflexivity. Qed.

Lemma bind_trace_Forall (P : event -> Prop) :
  Forall P (trace_of c) ->
  (forall a, result_of c = Returns a -> Forall P (trace_of (k a))) ->
  Forall P (trace_of (bind c k)).
Proof.
  destruct c as [[a|e] t]; simpl; intros Ht Hk.
  - specialize (Hk a eq_refl). destruct (k a) as [r t2]; simpl in *.
    apply Forall_app; split; assumption.
  - exact Ht.
Qed.
End Bind.

Lemma count_bind {A B} (p : event -> bool) (c : io A) (k : A -> io B) :
  count p (trace_of (bind c k))
  = (count p (trace_of c)
     + match result_of c with
       | Returns a => count p (trace_of (k a))
       | Raised _ => 0
       end)%nat.
Proof.
  destruct c as [[a|e] t]; cbn; [|lia].
  destruct (k a) as [r t2]; cbn. apply count_app.
Qed.

Lemma outcome_match_zero {A} (r : outcome A) :
  match r with Returns _ => 0%nat | Raised _ => 0%nat end = 0%nat.
Proof. destruct r; reflexivity. Qed.

Lemma try_excepts_trace_Forall {A} (P : event -> Prop) (c : io A)
    (clauses : list ((exn -> bool) * (exn -> io A))) :
  Forall P (trace_of c) ->
  (forall e cls h, In (cls, h) clauses -> Forall P (trace_of (h e))) ->
  Forall P (trace_of (try_excepts c clauses)).
Proof.
  destruct c as [[a|e] t]; simpl; intros Ht Hh; [exact Ht|].
  assert (Hf : forall r t2, first_handler e clauses = Some (r, t2) -> Forall P t2).
  { clear Ht. induction clauses as [|[cls h] rest IH]; simpl; intros r t2 E; [discriminate|].
    destruct (cls e).
    - injection E as E. specialize (Hh e cls h (or_introl eq_refl)).
      rewrite E in Hh. exact Hh.
    - apply (IH (fun e' cls' h' Hin => Hh e' cls' h' (or_intror Hin)) r t2 E). }
  destruct (first_handler e clauses) as [[r t2]|] eqn:E; simpl; [|exact Ht].
  apply Forall_app; split; [exact Ht | exact (Hf r t2 eq_refl)].
Qed.

Lemma try_finally_trace_Forall {A} (P : event -> Prop) (c : io A) (f : io unit) :
  Forall P (trace_of c) -> Forall P (trace_of f) ->
  Forall P (trace_of (try_finally c f)).
Proof.
  destruct c as [r t], f as [[u|e] t2]; simpl; intros H1 H2;
    apply Forall_app; split; assumption.
Qed.

(** * The sensor agent: retry loop *)

Section RetryLoop.
Import DHT11Sensor.
Variables (dev : nat -> probe) (now : string).

(** What one iteration of the retry loop can do. *)
Lemma attempt_body_cases (attempt : nat) :
  let c := attempt_body dev now attempt in
  count is_read_temperature (trace_of c) = 1%nat /\
  count is_post (trace_of c) = 0%nat /\
  ((exists d, result_of c = Returns (Return d) /\
              in_range (sd_temperature d) (sd_humidity d) /\
              temperature (dev attempt) = Yields (Some (sd_temperature d)) /\
              humidity (dev attempt) = Yields (Some (sd_humidity d)))
   \/ result_of c = Returns Continue
   \/ (exists e, result_of c = Raised e /\ is_Exception e = false)).
Proof.
  unfold attempt_body, get_temperature, get_humidity.
  destruct (temperature (dev attempt)) as [[t|]|e] eqn:Et;
    [destruct (humidity (dev attempt)) as [[h|]|e] eqn:Eh
    |destruct (humidity (dev attempt)) as [[h|]|e] eqn:Eh|];
    cbn; repeat (case_if; cbn);
    repeat split; eauto.
  repeat match goal with
         | H : (_ || _) = false |- _ => apply orb_false_elim in H; destruct H
         end.
  left. eexists; cbn; repeat split; eauto; cbn; apply Qltb_ge; assumption.
Qed.

(** One iteration, by the verdict on what the driver delivers. *)
Lemma attempt_body_classify (attempt : nat) :
  let c := attempt_body dev now attempt in
  match classify (dev attempt) with
  | Valid t h =>
      result_of c = Returns (Return {| sd_temperature := t; sd_humidity := h;
                                       sd_timestamp := now +:+ "Z" |})
  | Missing =>
      result_of c = Returns Continue /\ count is_sleep (trace_of c) = 1%nat
  | OutOfRange =>
      result_of c = Returns Continue /\ count is_sleep (trace_of c) = 0%nat
  | SourceError e =>
      if is_Exception e then
        result_of c = Returns Continue /\
        count is_sleep (trace_of c)
        = (if (attempt <? MAX_RETRIES - 1)%nat then 1 else 0)%nat
      else result_of c = Raised e
  end.
Proof.
  unfold classify, attempt_body, get_temperature, get_humidity.
  destruct (temperature (dev attempt)) as [[t|]|e];
    [destruct (humidity (dev attempt)) as [[h|]|e]
    |destruct (humidity (dev attempt)) as [[h|]|e]|];
    cbn;
    try (destruct (Qltb t (-100)), (Qltb 100 t), (Qltb h 0), (Qltb 100 h); cbn; auto; fail);
    repeat (case_if; cbn); auto.
Qed.

Lemma for_attempt_in_spec (range : list nat) :
  let c := for_attempt_in dev now range in
  (count is_read_temperature (trace_of c) <= length range)%nat /\
  count is_post (trace_of c) = 0%nat /\
  (forall d, result_of c = Returns (Some d) ->
             in_range (sd_temperature d) (sd_humidity d)) /\
  (forall e, result_of c = Raised e -> is_Exception e = false).
Proof.
  induction range as [|attempt rest IH]; cbn -[attempt_body].
  - refine (conj _ (conj _ (conj _ _))); auto; discriminate.
  - destruct (attempt_body_cases attempt) as (Hr & Hp & Hc).
    destruct (attempt_body dev now attempt) as [[f|e] t] eqn:Eb; cbn in *.
    + destruct f as [|d]; cbn.
      * destruct IH as (IH1 & IH2 & IH3 & IH4).
        destruct (for_attempt_in dev now rest) as [r t2]; cbn in *.
        rewrite !count_app, Hr, Hp.
        refine (conj _ (conj _ (conj IH3 IH4))); lia.
      * rewrite app_nil_r, Hr, Hp.
        refine (conj _ (conj _ (conj _ _))); try lia; try discriminate.
        intros d' [= <-]. destruct Hc as [(d0 & [= <-] & Hin & _)|[?|(e & ? & _)]];
          [exact Hin|discriminate|discriminate].
    + rewrite Hr, Hp.
      refine (conj _ (conj _ (conj _ _))); try lia; try discriminate.
      intros e' [= <-]. destruct Hc as [(d0 & ? & _)|[?|(e0 & [= <-] & He)]];
          [discriminate|discriminate|exact He].
Qed.

(** The humidity is read at most once per attempt. *)
Lemma attempt_body_humidity_reads (attempt : nat) :
  (count is_read_humidity (trace_of (attempt_body dev now attempt)) <= 1)%nat.
Proof.
  unfold attempt_body, get_temperature, get_humidity.
  destruct (temperature (dev attempt)) as [[t|]|e];
    [destruct (humidity (dev attempt)) as [[h|]|e]
    |destruct (humidity (dev attempt)) as [[h|]|e]|];
    cbn; repeat (case_if; cbn);
    first [exact (Nat.le_refl 1) | exact Nat.le_0_1].
Qed.

Lemma for_attempt_in_humidity_reads (range : list nat) :
  (count is_read_humidity (trace_of (for_attempt_in dev now range)) <= length range)%nat.
Proof.
  induction range as [|attempt rest IH]; cbn -[attempt_body]; [lia|].
  rewrite count_bind. pose proof (attempt_body_humidity_reads attempt) as H.
  destruct (result_of (attempt_body dev now attempt)) as [[|d]|e]; cbn; lia.
Qed.

(** When every attempt of the range is rejected, the loop runs to its
    end: one read of each property per attempt, no reading. *)
Lemma for_attempt_in_exhausted (range : list nat) :
  (forall attempt, In attempt range -> rejected (dev attempt)) ->
  let c := for_attempt_in dev now range in
  result_of c = Returns None /\
  count is_read_temperature (trace_of c) = length range.
Proof.
  induction range as [|attempt rest IH]; cbn -[attempt_body]; intros Hrej.
  - split; reflexivity.
  - destruct (attempt_body_cases attempt) as (Hr & _ & _).
    pose proof (attempt_body_classify attempt) as Hc.
    pose proof (Hrej attempt (or_introl eq_refl)) as Hthis.
    unfold rejected in Hthis. cbn zeta in Hc.
    assert (Hcont : result_of (attempt_body dev now attempt) = Returns Continue).
    { destruct (classify (dev attempt)) as [t h| | |e]; [contradiction| | |];
        try (destruct Hc; assumption).
      rewrite Hthis in Hc. destruct Hc; assumption. }
    destruct (attempt_body dev now attempt) as [r t] eqn:Eb; cbn in *. subst r.
    destruct (IH (fun a Ha => Hrej a (or_intror Ha))) as (IH1 & IH2).
    destruct (for_attempt_in dev now rest) as [r2 t2]; cbn in *.
    rewrite count_app, Hr, IH2. auto.
Qed.
End RetryLoop.

(** * The sensor agent: what is transmitted *)

Lemma no_post_transmits_in_range (t : list event) :
  count is_post t = 0%nat -> transmits_in_range t.
Proof.
  unfold transmits_in_range. induction t as [|ev t IH]; cbn; intros H; [constructor|].
  destruct ev; cbn in H; try discriminate; constructor; auto.
Qed.

Section SensorRun.
Import DHT11Sensor.

Lemma read_sensor_data_spec (self : t) (call : nat) (now : string) :
  let c := read_sensor_data self call now in
  (count is_read_temperature (trace_of c) <= MAX_RETRIES)%nat /\
  count is_post (trace_of c) = 0%nat /\
  (forall d, result_of c = Returns (Some d) ->
             in_range (sd_temperature d) (sd_humidity d)) /\
  (forall e, result_of c = Raised e -> is_Exception e = false).
Proof.
  unfold read_sensor_data. destruct (dht_device self) as [dev|].
  - destruct (for_attempt_in_spec (dev call) now (seq 0 MAX_RETRIES))
      as (H1 & H2 & H3 & H4).
    rewrite length_seq in H1.
    destruct (for_attempt_in (dev call) now (seq 0 MAX_RETRIES)) as [[[d|]|e] t];
      cbn in *; rewrite ?app_nil_r, ?count_app; cbn;
      refine (conj _ (conj _ (conj _ _))); try lia; auto; try discriminate.
  - cbn. refine (conj _ (conj _ (conj _ _))); try lia; auto; discriminate.
Qed.

Lemma read_sensor_data_humidity_reads (self : t) (call : nat) (now : string) :
  (count is_read_humidity (trace_of (read_sensor_data self call now)) <= MAX_RETRIES)%nat.
Proof.
  unfold read_sensor_data. destruct (dht_device self) as [dev|]; [|cbn; lia].
  rewrite count_bind.
  pose proof (for_attempt_in_humidity_reads (dev call) now (seq 0 MAX_RETRIES)) as H.
  rewrite length_seq in H.
  set (c := for_attempt_in (dev call) now (seq 0 MAX_RETRIES)) in *. clearbody c.
  destruct (result_of c) as [[d|]|e]; cbn; lia.
Qed.

Lemma payload_of_in_range (self : t) (d : sensor_data) :
  in_range (sd_temperature d) (sd_humidity d) ->
  payload_in_range (payload_of self d).
Proof.
  intros H. exists (sd_temperature d), (sd_humidity d).
  split; [reflexivity|]. split; [reflexivity|]. exact H.
Qed.

Lemma send_to_api_transmits (self : t) (d : sensor_data) (r : http_result) :
  in_range (sd_temperature d) (sd_humidity d) ->
  transmits_in_range (trace_of (send_to_api self (Some d) r)).
Proof.
  intros H. pose proof (payload_of_in_range self d H) as Hp.
  unfold send_to_api, session_post.
  destruct r as [code text|e]; cbn.
  - destruct (code =? 201)%Z; cbn; repeat constructor; exact Hp.
  - destruct (is_RequestException e); cbn; repeat constructor; exact Hp.
Qed.

Lemma while_true_transmits (self : t) (w : env) (fuel cycle : nat) :
  transmits_in_range (trace_of (while_true self w cycle fuel)).
Proof.
  revert cycle. induction fuel as [|fuel IH]; intros cycle; cbn -[read_sensor_data send_to_api].
  - constructor.
  - destruct (read_sensor_data_spec self cycle (utcnow w cycle)) as (_ & Hp & Hd & _).
    apply bind_trace_Forall.
    + apply no_post_transmits_in_range, Hp.
    + intros data Hdata. apply bind_trace_Forall.
      * destruct data as [d|]; [|constructor].
        apply bind_trace_Forall.
        -- apply send_to_api_transmits, Hd, Hdata.
        -- intros [|] _; cbn; repeat constructor.
      * intros _ _. apply bind_trace_Forall; [cbn; repeat constructor|].
        intros _ _. apply IH.
Qed.

Lemma run_transmits (self : t) (w : env) (fuel : nat) :
  transmits_in_range (trace_of (run self w fuel)).
Proof.
  unfold run. apply bind_trace_Forall; [cbn; repeat constructor|]. intros _ _.
  apply bind_trace_Forall.
  - unfold initialize_sensor. destruct (hardware w) as [d|e]; cbn.
    + repeat constructor.
    + destruct (is_Exception e); cbn; repeat constructor.
  - intros [ok self'] _. destruct ok; cbn [negb].
    + do 3 (apply bind_trace_Forall; [cbn; repeat constructor|intros _ _]).
      apply try_finally_trace_Forall; [|repeat constructor].
      apply try_excepts_trace_Forall; [apply while_true_transmits|].
      intros e cls h [[= <- <-]|[[= <- <-]|[]]]; repeat constructor.
    + cbn. repeat constructor.
Qed.
End SensorRun.

(** * The sensor agent: claims *)

(** C1. [read_sensor_data] never returns a reading whose temperature lies
    outside [-100, 100] or whose humidity lies outside [0, 100]: an
    attempt that delivers such values goes on to the next attempt without
    a reading, every reading that is returned is in range, and every
    payload the main loop posts carries a temperature and a humidity in
    range. *)
Theorem C1_out_of_range_never_returned_nor_sent :
  (forall (dev : nat -> DHT11Sensor.probe) (now : string) (attempt : nat) (t h : Q),
      DHT11Sensor.temperature (dev attempt) = DHT11Sensor.Yields (Some t) ->
      DHT11Sensor.humidity (dev attempt) = DHT11Sensor.Yields (Some h) ->
      ~ in_range t h ->
      result_of (DHT11Sensor.attempt_body dev now attempt)
      = Returns DHT11Sensor.Continue) /\
  (forall (self : DHT11Sensor.t) (call : nat) (now : string) (d : DHT11Sensor.sensor_data),
      result_of (DHT11Sensor.read_sensor_data self call now) = Returns (Some d) ->
      in_range (DHT11Sensor.sd_temperature d) (DHT11Sensor.sd_humidity d)) /\
  (forall (self : DHT11Sensor.t) (w : DHT11Sensor.env) (fuel : nat),
      transmits_in_range (trace_of (DHT11Sensor.run self w fuel))).
Proof.
  split; [|split].
  - intros dev now attempt t h Ht Hh Hout.
    destruct (attempt_body_cases dev now attempt) as (_ & _ & [(d & _ & Hin & Hdt & Hdh)|[Hc|(e & Hr & _)]]).
    + exfalso. apply Hout. rewrite Ht in Hdt. rewrite Hh in Hdh.
      injection Hdt as ->. injection Hdh as ->. exact Hin.
    + exact Hc.
    + exfalso. revert Hr. unfold DHT11Sensor.attempt_body, DHT11Sensor.get_temperature,
        DHT11Sensor.get_humidity. rewrite Ht, Hh. cbn. repeat (case_if; cbn); discriminate.
  - intros self call now d. apply read_sensor_data_spec.
  - apply run_transmits.
Qed.

Lemma C1_witness :
  result_of (DHT11Sensor.attempt_body (Examples.hot_then_fine 0%nat) "t" 0)
  = Returns DHT11Sensor.Continue /\
  in_range 22.5 48.
Proof.
  split.
  - apply (proj1 C1_out_of_range_never_returned_nor_sent (Examples.hot_then_fine 0%nat)
             "t" 0%nat 150%Q 50%Q eq_refl eq_refl).
    unfold in_range. intros (_ & H & _). revert H. vm_compute. intros H. apply H. reflexivity.
  - apply (proj1 (proj2 C1_out_of_range_never_returned_nor_sent)
             (Examples.sensor_with Examples.fine) 0%nat "2025-01-01T00:00:00"
             Examples.reading_fine).
    reflexivity.
Defined.

(** C2. One call of [read_sensor_data] reads the source in at most
    [MAX_RETRIES] attempts (at most that many reads of the temperature and
    of the humidity) and lets no [Exception] escape; when every one
    of the [MAX_RETRIES] attempts is rejected (missing value, value out of
    range, or an [Exception] of the source), the call makes exactly
    [MAX_RETRIES] attempts and returns [None]; [MAX_RETRIES] is 3. *)
Theorem C2_bounded_retries_then_failure :
  forall (self : DHT11Sensor.t) (call : nat) (now : string),
    let c := DHT11Sensor.read_sensor_data self call now in
    DHT11Sensor.MAX_RETRIES = 3%nat /\
    (count is_read_temperature (trace_of c) <= DHT11Sensor.MAX_RETRIES)%nat /\
    (count is_read_humidity (trace_of c) <= DHT11Sensor.MAX_RETRIES)%nat /\
    (forall e, result_of c = Raised e -> is_Exception e = false) /\
    (forall dev, DHT11Sensor.dht_device self = Some dev ->
       (forall attempt, (attempt < DHT11Sensor.MAX_RETRIES)%nat ->
                        rejected (dev call attempt)) ->
       result_of c = Returns None /\
       count is_read_temperature (trace_of c) = DHT11Sensor.MAX_RETRIES).
Proof.
  intros self call now c.
  destruct (read_sensor_data_spec self call now) as (H1 & _ & _ & H4).
  split; [reflexivity|]. split; [exact H1|].
  split; [apply read_sensor_data_humidity_reads|]. split; [exact H4|].
  intros dev Hdev Hrej. subst c. unfold DHT11Sensor.read_sensor_data. rewrite Hdev.
  destruct (for_attempt_in_exhausted (dev call) now (seq 0 DHT11Sensor.MAX_RETRIES))
    as (Hr & Hn).
  { intros attempt Hin. apply Hrej. apply in_seq in Hin. lia. }
  rewrite length_seq in Hn.
  destruct (DHT11Sensor.for_attempt_in (dev call) now (seq 0 DHT11Sensor.MAX_RETRIES))
    as [r t]; cbn in Hr, Hn. subst r. cbn.
  rewrite count_app, Hn. cbn. split; reflexivity.
Qed.

Lemma C2_witness :
  result_of (DHT11Sensor.read_sensor_data (Examples.sensor_with Examples.always_missing)
               0 "t") = Returns None /\
  count is_read_temperature
    (trace_of (DHT11Sensor.read_sensor_data (Examples.sensor_with Examples.always_missing)
                 0 "t")) = 3%nat.
Proof.
  apply (proj2 (proj2 (proj2 (proj2 (C2_bounded_retries_then_failure
                                       (Examples.sensor_with Examples.always_missing)
                                       0%nat "t"))))
           Examples.always_missing eq_refl).
  intros attempt _. exact I.
Defined.

(** C5, the code at the failing input. After a temperature out of range
    the next attempt follows at once: the trace of the call has no sleep
    between the two reads. *)
Theorem C5_no_backoff_after_out_of_range :
  DHT11Sensor.read_sensor_data (Examples.sensor_with Examples.hot_then_fine) 0 "t"
  = (Returns (Some {| DHT11Sensor.sd_temperature := 22.5;
                      DHT11Sensor.sd_humidity := 48;
                      DHT11Sensor.sd_timestamp := "tZ" |}),
     [ReadTemperature; ReadHumidity; Log WARNING "Temperature out of range";
      ReadTemperature; ReadHumidity; Log INFO "Temp, Humidity"]) /\
  count is_sleep
    (trace_of (DHT11Sensor.read_sensor_data
                 (Examples.sensor_with Examples.hot_then_fine) 0 "t")) = 0%nat /\
  count is_sleep
    (trace_of (DHT11Sensor.read_sensor_data
                 (Examples.sensor_with Examples.always_missing) 0 "t")) = 3%nat.
Proof. repeat split; reflexivity. Qed.

(** * The Reporter *)

(** C3. The Reporter of the sensor agent ([send_to_api]) and of the host
    agent ([send_health_data]) returns [True] exactly when the POST
    answers with status code 201; any other status code and any
    [RequestException] of the transport make it return [False], not
    raise. *)
Theorem C3_reporter_ok_iff_201 :
  (forall (self : DHT11Sensor.t) (d : DHT11Sensor.sensor_data) (r : http_result),
      result_of (DHT11Sensor.send_to_api self (Some d) r) = Returns true
      <-> exists text, r = Response 201 text) /\
  (forall (self : DHT11Sensor.t) (d : DHT11Sensor.sensor_data) (code : Z) (text : string),
      code <> 201%Z ->
      result_of (DHT11Sensor.send_to_api self (Some d) (Response code text))
      = Returns false) /\
  (forall (self : DHT11Sensor.t) (d : DHT11Sensor.sensor_data) (e : exn),
      is_RequestException e = true ->
      result_of (DHT11Sensor.send_to_api self (Some d) (Fails e)) = Returns false) /\
  (forall (self : PiHealthMonitor.t) (d : gmap string json) (r : http_result),
      PiHealthMonitor.truthy (Some d) = true ->
      (result_of (PiHealthMonitor.send_health_data self (Some d) r) = Returns true
       <-> exists text, r = Response 201 text)) /\
  (forall (self : PiHealthMonitor.t) (d : gmap string json) (code : Z) (text : string),
      code <> 201%Z ->
      result_of (PiHealthMonitor.send_health_data self (Some d) (Response code text))
      = Returns false) /\
  (forall (self : PiHealthMonitor.t) (d : gmap string json) (e : exn),
      is_RequestException e = true ->
      result_of (PiHealthMonitor.send_health_data self (Some d) (Fails e))
      = Returns false).
Proof.
  repeat apply conj.
  - intros self d [code text|e]; unfold DHT11Sensor.send_to_api, session_post; cbn.
    + destruct (code =? 201)%Z eqn:E; cbn; split.
      * intros _. apply Z.eqb_eq in E. subst code. eauto.
      * reflexivity.
      * discriminate.
      * intros (text' & [= -> _]). discriminate.
    + destruct (is_RequestException e); cbn; split;
        try discriminate; intros (text & [=]).
  - intros self d code text Hne. unfold DHT11Sensor.send_to_api, session_post; cbn.
    apply Z.eqb_neq in Hne. rewrite Hne. reflexivity.
  - intros self d e He. unfold DHT11Sensor.send_to_api, session_post; cbn.
    rewrite He. reflexivity.
  - intros self d r Hd. unfold PiHealthMonitor.send_health_data. rewrite Hd.
    destruct r as [code text|e]; unfold session_post; cbn.
    + destruct (code =? 201)%Z eqn:E; cbn; split.
      * intros _. apply Z.eqb_eq in E. subst code. eauto.
      * reflexivity.
      * discriminate.
      * intros (text' & [= -> _]). discriminate.
    + destruct (is_RequestException e); cbn; split;
        try discriminate; intros (text & [=]).
  - intros self d code text Hne. unfold PiHealthMonitor.send_health_data, session_post.
    destruct (PiHealthMonitor.truthy (Some d)); cbn; [|reflexivity].
    apply Z.eqb_neq in Hne. rewrite Hne. reflexivity.
  - intros self d e He. unfold PiHealthMonitor.send_health_data, session_post.
    destruct (PiHealthMonitor.truthy (Some d)); cbn; [|reflexivity].
    rewrite He. reflexivity.
Qed.

Lemma C3_witness :
  result_of (DHT11Sensor.send_to_api (Examples.sensor_with Examples.fine)
               (Some Examples.reading_fine) (Response 500 "error")) = Returns false /\
  result_of (DHT11Sensor.send_to_api (Examples.sensor_with Examples.fine)
               (Some Examples.reading_fine) (Fails ConnectionError)) = Returns false /\
  result_of (DHT11Sensor.send_to_api (Examples.sensor_with Examples.fine)
               (Some Examples.reading_fine) (Response 201 "created")) = Returns true /\
  result_of (PiHealthMonitor.send_health_data Examples.monitor
               (Some Examples.small_payload) (Response 201 "created")) = Returns true.
Proof.
  pose proof C3_reporter_ok_iff_201 as (Hiff & Hcode & Hexn & Hiff' & _).
  split; [|split; [|split]].
  - apply Hcode. discriminate.
  - apply Hexn. reflexivity.
  - apply Hiff. exists "created". reflexivity.
  - apply Hiff'; [reflexivity|]. exists "created". reflexivity.
Defined.

(** * The host agent: collection of the metrics *)

Lemma result_bind {A B} (c : io A) (k : A -> io B) (a : A) :
  result_of c = Returns a -> result_of (bind c k) = result_of (k a).
Proof.
  destruct c as [[a'|e] t]; cbn; [|discriminate].
  intros [= ->]. destruct (k a); reflexivity.
Qed.

Lemma result_try_except {A} (c : io A) (cls : exn -> bool) (h : exn -> io A) (a : A) :
  result_of c = Returns a -> result_of (try_except c cls h) = Returns a.
Proof. destruct c as [[a'|e] t]; cbn; [auto|discriminate]. Qed.

Section Getters.
Import PiHealthMonitor.
Variable s : sources.

Lemma get_cpu_temperature_returns :
  caught (thermal_zone0 s) ->
  exists v, result_of (get_cpu_temperature s) = Returns v /\
            (failed (thermal_zone0 s) -> v = 0%Q).
Proof.
  unfold get_cpu_temperature, caught, failed.
  destruct (thermal_zone0 s) as [raw|e]; cbn -[is_Exception].
  - intros _. eexists; split; [reflexivity|]. intros (e & [=]).
  - intros He. rewrite He. cbn. eauto.
Qed.

Lemma get_cpu_usage_returns :
  caught (cpu_percent s) ->
  exists v, result_of (get_cpu_usage s) = Returns v /\
            (failed (cpu_percent s) -> v = 0%Q).
Proof.
  unfold get_cpu_usage, caught, failed.
  destruct (cpu_percent s) as [raw|e]; cbn -[is_Exception].
  - intros _. eexists; split; [reflexivity|]. intros (e & [=]).
  - intros He. rewrite He. cbn. eauto.
Qed.

Lemma get_memory_usage_returns :
  caught (virtual_memory s) ->
  exists v, result_of (get_memory_usage s) = Returns v /\
            (failed (virtual_memory s) -> v = 0%Q).
Proof.
  unfold get_memory_usage, caught, failed.
  destruct (virtual_memory s) as [raw|e]; cbn -[is_Exception].
  - intros _. eexists; split; [reflexivity|]. intros (e & [=]).
  - intros He. rewrite He. cbn. eauto.
Qed.

Lemma get_disk_usage_returns :
  caught (disk_usage s) ->
  exists v, result_of (get_disk_usage s) = Returns v /\
            (failed (disk_usage s) -> v = 0%Q).
Proof.
  unfold get_disk_usage, caught, failed.
  destruct (disk_usage s) as [raw|e]; cbn -[is_Exception].
  - intros _. eexists; split; [reflexivity|]. intros (e & [=]).
  - intros He. rewrite He. cbn. eauto.
Qed.

Lemma get_network_usage_returns :
  caught (net_io_counters s) ->
  exists v, result_of (get_network_usage s) = Returns v /\
            (failed (net_io_counters s) -> v = {| upload := 0; download := 0 |}).
Proof.
  unfold get_network_usage, caught, failed.
  destruct (net_io_counters s) as [raw|e]; cbn -[is_Exception].
  - intros _. eexists; split; [reflexivity|]. intros (e & [=]).
  - intros He. rewrite He. cbn. eauto.
Qed.

Lemma get_system_load_returns :
  caught (getloadavg s) ->
  exists v, result_of (get_system_load s) = Returns v /\
            (failed (getloadavg s) ->
             v = {| load_1m := 0; load_5m := 0; load_15m := 0 |}).
Proof.
  unfold get_system_load, caught, failed.
  destruct (getloadavg s) as [raw|e]; cbn -[is_Exception].
  - intros _. eexists; split; [reflexivity|]. intros (e & [=]).
  - intros He. rewrite He. cbn. eauto.
Qed.

Lemma get_uptime_returns :
  caught (boot_time s) ->
  exists v, result_of (get_uptime s) = Returns v /\
            (failed (boot_time s) -> v = 0%Q).
Proof.
  unfold get_uptime, caught, failed.
  destruct (boot_time s) as [raw|e]; cbn -[is_Exception].
  - intros _. eexists; split; [reflexivity|]. intros (e & [=]).
  - intros He. rewrite He. cbn. eauto.
Qed.

Lemma get_cpu_voltage_returns :
  caught_completed (measure_volts s) ->
  result_of (get_cpu_voltage s) = Returns (available (measure_volts s)).
Proof.
  unfold get_cpu_voltage, caught_completed, caught, available.
  destruct (measure_volts s) as [[returncode [v|e]]|e]; cbn -[is_Exception].
  - destruct (returncode =? 0)%Z; reflexivity.
  - intros He. destruct (returncode =? 0)%Z; cbn -[is_Exception]; rewrite ?He; reflexivity.
  - intros He. rewrite He. reflexivity.
Qed.

Lemma get_cpu_frequency_returns :
  caught_completed (measure_clock s) ->
  result_of (get_cpu_frequency s)
  = Returns (option_map (fun hz => (inject_Z hz / 1000000)%Q) (available (measure_clock s))).
Proof.
  unfold get_cpu_frequency, caught_completed, caught, available.
  destruct (measure_clock s) as [[returncode [v|e]]|e]; cbn -[is_Exception].
  - destruct (returncode =? 0)%Z; reflexivity.
  - intros He. destruct (returncode =? 0)%Z; cbn -[is_Exception]; rewrite ?He; reflexivity.
  - intros He. rewrite He. reflexivity.
Qed.
End Getters.

(** C4. In the host agent every getter catches its own failure: a failing
    source of the CPU temperature, CPU usage, memory usage, disk usage,
    network counters, load averages or uptime makes its getter return 0.0
    and the field of the sample is the number 0; a voltage or clock
    measurement that is not available makes its getter return [None] and
    the sample has no such key; an available one is in the sample,
    rounded. *)
Theorem C4_collection_failures_degrade :
  forall (self : PiHealthMonitor.t) (s : PiHealthMonitor.sources),
    no_interrupt s ->
    (failed (PiHealthMonitor.thermal_zone0 s) ->
     result_of (PiHealthMonitor.get_cpu_temperature s) = Returns 0%Q) /\
    (failed (PiHealthMonitor.cpu_percent s) ->
     result_of (PiHealthMonitor.get_cpu_usage s) = Returns 0%Q) /\
    (failed (PiHealthMonitor.virtual_memory s) ->
     result_of (PiHealthMonitor.get_memory_usage s) = Returns 0%Q) /\
    (failed (PiHealthMonitor.disk_usage s) ->
     result_of (PiHealthMonitor.get_disk_usage s) = Returns 0%Q) /\
    (failed (PiHealthMonitor.net_io_counters s) ->
     result_of (PiHealthMonitor.get_network_usage s)
     = Returns {| PiHealthMonitor.upload := 0; PiHealthMonitor.download := 0 |}) /\
    (failed (PiHealthMonitor.getloadavg s) ->
     result_of (PiHealthMonitor.get_system_load s)
     = Returns {| PiHealthMonitor.load_1m := 0; PiHealthMonitor.load_5m := 0;
                  PiHealthMonitor.load_15m := 0 |}) /\
    (failed (PiHealthMonitor.boot_time s) ->
     result_of (PiHealthMonitor.get_uptime s) = Returns 0%Q) /\
    (available (PiHealthMonitor.measure_volts s) = None ->
     result_of (PiHealthMonitor.get_cpu_voltage s) = Returns None) /\
    (available (PiHealthMonitor.measure_clock s) = None ->
     result_of (PiHealthMonitor.get_cpu_frequency s) = Returns None) /\
    exists health_data : gmap string json,
      result_of (PiHealthMonitor.collect_health_data self s) = Returns (Some health_data) /\
      (failed (PiHealthMonitor.thermal_zone0 s) ->
       health_data !! "cpuTemperature" = Some (JNum 0)) /\
      (failed (PiHealthMonitor.cpu_percent s) ->
       health_data !! "cpuUsage" = Some (JNum 0)) /\
      (failed (PiHealthMonitor.virtual_memory s) ->
       health_data !! "memoryUsage" = Some (JNum 0)) /\
      (failed (PiHealthMonitor.disk_usage s) ->
       health_data !! "diskUsage" = Some (JNum 0)) /\
      (failed (PiHealthMonitor.net_io_counters s) ->
       health_data !! "networkUpload" = Some (JNum 0) /\
       health_data !! "networkDownload" = Some (JNum 0)) /\
      (failed (PiHealthMonitor.getloadavg s) ->
       health_data !! "loadAverage1m" = Some (JNum 0) /\
       health_data !! "loadAverage5m" = Some (JNum 0) /\
       health_data !! "loadAverage15m" = Some (JNum 0)) /\
      (failed (PiHealthMonitor.boot_time s) ->
       health_data !! "uptime" = Some (JNum 0)) /\
      (available (PiHealthMonitor.measure_volts s) = None ->
       health_data !! "voltage" = None) /\
      (available (PiHealthMonitor.measure_clock s) = None ->
       health_data !! "frequency" = None) /\
      (forall v, available (PiHealthMonitor.measure_volts s) = Some v ->
                 health_data !! "voltage" = Some (JNum (round v 3))) /\
      (forall hz, available (PiHealthMonitor.measure_clock s) = Some hz ->
                  health_data !! "frequency"
                  = Some (JNum (round (inject_Z hz / 1000000) 0))).
Proof.
  intros self s (C1 & C2 & C3 & C4 & C5 & C6 & C7 & C8 & C9).
  destruct (get_cpu_temperature_returns s C1) as (v1 & R1 & F1).
  destruct (get_cpu_usage_returns s C2) as (v2 & R2 & F2).
  destruct (get_memory_usage_returns s C3) as (v3 & R3 & F3).
  destruct (get_disk_usage_returns s C4) as (v4 & R4 & F4).
  destruct (get_network_usage_returns s C5) as (v5 & R5 & F5).
  destruct (get_system_load_returns s C6) as (v6 & R6 & F6).
  destruct (get_uptime_returns s C7) as (v7 & R7 & F7).
  pose proof (get_cpu_voltage_returns s C8) as R8.
  pose proof (get_cpu_frequency_returns s C9) as R9.
  repeat apply conj;
    try (intros H; first [rewrite R1, (F1 H) | rewrite R2, (F2 H) | rewrite R3, (F3 H)
                         | rewrite R4, (F4 H) | rewrite R5, (F5 H) | rewrite R6, (F6 H)
                         | rewrite R7, (F7 H) | rewrite R8, H | rewrite R9, H];
         reflexivity).
  eexists. split.
  - unfold PiHealthMonitor.collect_health_data. apply result_try_except.
    rewrite (result_bind _ _ _ R1), (result_bind _ _ _ R2), (result_bind _ _ _ R3),
      (result_bind _ _ _ R4), (result_bind _ _ _ R5), (result_bind _ _ _ R6),
      (result_bind _ _ _ R7), (result_bind _ _ _ R8), (result_bind _ _ _ R9).
    reflexivity.
  - destruct (available (PiHealthMonitor.measure_volts s)) as [v|];
      destruct (available (PiHealthMonitor.measure_clock s)) as [hz|]; cbn [option_map];
      repeat apply conj; try discriminate;
      try (intros H; first [rewrite (F1 H) | rewrite (F2 H) | rewrite (F3 H)
                           | rewrite (F4 H) | rewrite (F5 H) | rewrite (F6 H)
                           | rewrite (F7 H)]; repeat split; reflexivity);
      try (intros _; reflexivity);
      try (intros x [= <-]; reflexivity).
Qed.

Lemma C4_witness :
  exists health_data : gmap string json,
    result_of (PiHealthMonitor.collect_health_data Examples.monitor Examples.degraded_host)
    = Returns (Some health_data) /\
    health_data !! "cpuTemperature" = Some (JNum 0) /\
    health_data !! "voltage" = None /\
    health_data !! "frequency" = Some (JNum 1500).
Proof.
  destruct (C4_collection_failures_degrade Examples.monitor Examples.degraded_host)
    as (_ & _ & _ & _ & _ & _ & _ & _ & _ & hd & R & T & _ & _ & _ & _ & _ & _ & V & _ & _ & F).
  { repeat split; reflexivity. }
  exists hd. split; [exact R|]. split; [|split].
  - apply T. exists OSError. reflexivity.
  - apply V. reflexivity.
  - apply (F 1500000000%Z). reflexivity.
Defined.

(** * The host agent: the loop and its sidecar queries *)

Lemma only_logs_count (t : list event) :
  only_logs t ->
  count is_get t = 0%nat /\ count is_post t = 0%nat /\ count is_sleep t = 0%nat /\
  count is_read_temperature t = 0%nat.
Proof.
  induction 1 as [|ev t Hev _ IH]; [repeat split|].
  destruct ev; try discriminate. exact IH.
Qed.

Lemma try_except_trace_Forall {A} (P : event -> Prop) (c : io A) (cls : exn -> bool)
    (h : exn -> io A) :
  Forall P (trace_of c) ->
  (forall e, Forall P (trace_of (h e))) ->
  Forall P (trace_of (try_except c cls h)).
Proof.
  destruct c as [[a|e] t]; cbn; intros Ht Hh; [exact Ht|].
  destruct (cls e); [|exact Ht].
  specialize (Hh e). destruct (h e) as [r t2]. apply Forall_app; split; assumption.
Qed.

Section Collect.
Import PiHealthMonitor.
Variables (self : t) (s : sources).

Lemma collect_health_data_only_logs :
  only_logs (trace_of (collect_health_data self s)).
Proof.
  unfold collect_health_data, only_logs.
  apply try_except_trace_Forall; [|intros e; repeat constructor].
  apply bind_trace_Forall;
    [unfold get_cpu_temperature; only_logs_getter (thermal_zone0 s)|intros cpu_temp _].
  apply bind_trace_Forall;
    [unfold get_cpu_usage; only_logs_getter (cpu_percent s)|intros cpu_usage _].
  apply bind_trace_Forall;
    [unfold get_memory_usage; only_logs_getter (virtual_memory s)|intros memory_usage _].
  apply bind_trace_Forall;
    [unfold get_disk_usage; only_logs_getter (disk_usage s)|intros disk _].
  apply bind_trace_Forall;
    [unfold get_network_usage; only_logs_getter (net_io_counters s)|intros network_usage _].
  apply bind_trace_Forall;
    [unfold get_system_load; only_logs_getter (getloadavg s)|intros load_avg _].
  apply bind_trace_Forall;
    [unfold get_uptime; only_logs_getter (boot_time s)|intros uptime _].
  apply bind_trace_Forall; [|intros voltage _].
  { unfold get_cpu_voltage.
    destruct (measure_volts s) as [[returncode [v|e]]|e]; cbn -[is_Exception];
      try destruct (returncode =? 0)%Z; cbn -[is_Exception];
      try destruct (is_Exception e); repeat constructor. }
  apply bind_trace_Forall; [|intros frequency _].
  { unfold get_cpu_frequency.
    destruct (measure_clock s) as [[returncode [v|e]]|e]; cbn -[is_Exception];
      try destruct (returncode =? 0)%Z; cbn -[is_Exception];
      try destruct (is_Exception e); repeat constructor. }
  cbn. repeat constructor.
Qed.

End Collect.

Lemma time_sleep_no_get (secs : Q) : count is_get (trace_of (time_sleep secs)) = 0%nat.
Proof. unfold time_sleep. destruct (Qle_bool 0 secs); reflexivity. Qed.

Lemma sidecar_due_lt (self : PiHealthMonitor.t) (now : Q) :
  PiHealthMonitor.sidecar_due self now = true
  <-> (py_mod now 300 < inject_Z (PiHealthMonitor.interval self))%Q.
Proof. apply Qltb_lt. Qed.

Section HostCycle.
Import PiHealthMonitor.
Variables (self : t) (w : env) (cycle : nat).

Lemma send_health_data_no_get (d : option (gmap string json)) (r : http_result) :
  count is_get (trace_of (send_health_data self d r)) = 0%nat.
Proof.
  unfold send_health_data, session_post. destruct d as [d|]; [|reflexivity].
  destruct (truthy (Some d)); [|reflexivity].
  destruct r as [code text|e]; cbn.
  - destruct (code =? 201)%Z; reflexivity.
  - destruct (is_RequestException e); reflexivity.
Qed.

Lemma send_health_data_true (d : option (gmap string json)) (r : http_result) :
  result_of (send_health_data self d r) = Returns true -> accepted r.
Proof.
  unfold send_health_data, session_post, accepted. destruct d as [d|]; [|discriminate].
  destruct (truthy (Some d)); [|discriminate].
  destruct r as [code text|e]; cbn.
  - destruct (code =? 201)%Z eqn:E; cbn; [|discriminate].
    apply Z.eqb_eq in E. subst code. eauto.
  - destruct (is_RequestException e); discriminate.
Qed.



Lemma sidecar_invoked_only_if :
  sidecar_invoked self w cycle ->
  accepted (api w cycle) /\ sidecar_due self (clock w cycle) = true.
Proof.
  unfold sidecar_invoked, cycle_body. intros H.
  destruct (only_logs_count _ (collect_health_data_only_logs self (metric_sources w cycle)))
    as (H0 & _).
  rewrite count_bind, H0 in H.
  destruct (result_of (collect_health_data self (metric_sources w cycle))) as [d|e];
    [|cbn in H; lia].
  rewrite count_bind, time_sleep_no_get, outcome_match_zero in H.
  destruct (truthy d); [|cbn in H; lia].
  rewrite count_bind, send_health_data_no_get in H.
  destruct (result_of (send_health_data self d (api w cycle))) as [[|]|e] eqn:Es;
    try (cbn in H; lia).
  split; [exact (send_health_data_true _ _ Es)|].
  destruct (sidecar_due self (clock w cycle)); [reflexivity|cbn in H; lia].
Qed.

End HostCycle.



Lemma py_mod_nonneg (now : Q) : (0 <= py_mod now 300)%Q.
Proof.
  unfold py_mod. pose proof (Qfloor_le (now / 300)) as Hf.
  assert (Ht : (now == 300 * (now / 300))%Q) by (field; discriminate).
  set (q := (now / 300)%Q) in *. lra.
Qed.





(** * Preflight *)

(** C6, as the code has it. A preflight failure is terminal and quiet:
    when the health probe of the API fails (host agent and both
    simulators) or the sensor driver cannot be created (sensor agent),
    [main] logs, returns without a single cycle (nothing read, posted or
    slept) and the process ends with exit status 0; the sensor agent ends
    with exit status 1 when it is not run as root, before any
    preflight. *)
Theorem C6_preflight_failure_is_terminal :
  (forall (args : PiHealthMonitor.t) (euid : Z) (w : PiHealthMonitor.env) (fuel : nat),
      probe_failed (PiHealthMonitor.health_probe w) ->
      let c := PiHealthMonitor.main args euid w fuel in
      result_of c = Returns tt /\ exit_status (result_of c) = 0%Z /\
      count is_post (trace_of c) = 0%nat /\ count is_sleep (trace_of c) = 0%nat /\
      count is_get (trace_of c) = 1%nat) /\
  (forall (w : DHT11Sensor.env) (fuel : nat) (e : exn),
      DHT11Sensor.hardware w = Raised e -> is_Exception e = true ->
      let c := DHT11Sensor.main 0 w fuel in
      result_of c = Returns tt /\ exit_status (result_of c) = 0%Z /\
      count is_read_temperature (trace_of c) = 0%nat /\
      count is_post (trace_of c) = 0%nat /\ count is_sleep (trace_of c) = 0%nat) /\
  (forall (args : DHT11Simulator.t) (w : DHT11Simulator.env) (fuel : nat),
      probe_failed (DHT11Simulator.health_probe w) ->
      let c := DHT11Simulator.main args w fuel in
      result_of c = Returns tt /\ exit_status (result_of c) = 0%Z /\
      count is_post (trace_of c) = 0%nat /\ count is_sleep (trace_of c) = 0%nat /\
      count is_get (trace_of c) = 1%nat) /\
  (forall (args : PiHealthSimulator.t) (w : PiHealthSimulator.env) (fuel : nat),
      probe_failed (PiHealthSimulator.health_probe w) ->
      let c := PiHealthSimulator.main args w fuel in
      result_of c = Returns tt /\ exit_status (result_of c) = 0%Z /\
      count is_post (trace_of c) = 0%nat /\ count is_sleep (trace_of c) = 0%nat /\
      count is_get (trace_of c) = 1%nat) /\
  (forall (euid : Z) (w : DHT11Sensor.env) (fuel : nat),
      euid <> 0%Z ->
      let c := DHT11Sensor.main euid w fuel in
      exit_status (result_of c) = 1%Z /\
      count is_read_temperature (trace_of c) = 0%nat /\
      count is_post (trace_of c) = 0%nat /\ count is_sleep (trace_of c) = 0%nat).
Proof.
  repeat apply conj.
  - intros args euid w fuel Hp.
    unfold PiHealthMonitor.main, PiHealthMonitor.run, PiHealthMonitor.test_api_connection,
      session_get.
    destruct (PiHealthMonitor.health_probe w) as [code text|e]; cbn in Hp.
    + apply Z.eqb_neq in Hp. destruct (negb (euid =? 0)%Z); cbn; rewrite Hp; cbn;
        repeat split; reflexivity.
    + destruct (negb (euid =? 0)%Z); cbn; rewrite Hp; cbn; repeat split; reflexivity.
  - intros w fuel e Hw He.
    unfold DHT11Sensor.main, DHT11Sensor.run, DHT11Sensor.initialize_sensor.
    rewrite Hw. cbn -[is_Exception]. rewrite He. cbn. repeat split; reflexivity.
  - intros args w fuel Hp.
    unfold DHT11Simulator.main, DHT11Simulator.run, DHT11Simulator.test_api_connection,
      session_get.
    destruct (DHT11Simulator.health_probe w) as [code text|e]; cbn in Hp.
    + apply Z.eqb_neq in Hp. cbn; rewrite Hp; cbn; repeat split; reflexivity.
    + cbn; rewrite Hp; cbn; repeat split; reflexivity.
  - intros args w fuel Hp.
    unfold PiHealthSimulator.main, PiHealthSimulator.run,
      PiHealthSimulator.test_api_connection, session_get.
    destruct (PiHealthSimulator.health_probe w) as [code text|e]; cbn in Hp.
    + apply Z.eqb_neq in Hp. cbn; rewrite Hp; cbn; repeat split; reflexivity.
    + cbn; rewrite Hp; cbn; repeat split; reflexivity.
  - intros euid w fuel Hne. unfold DHT11Sensor.main.
    apply Z.eqb_neq in Hne. rewrite Hne. cbn. repeat split; reflexivity.
Qed.

Lemma C6_witness :
  exit_status (result_of (PiHealthMonitor.main Examples.monitor 0
                            Examples.unreachable_api 3)) = 0%Z /\
  exit_status (result_of (DHT11Sensor.main 0 Examples.no_sensor 3)) = 0%Z /\
  exit_status (result_of (DHT11Simulator.main Examples.sensor_simulator
                            (Examples.sensor_simulator_world 503) 3)) = 0%Z /\
  exit_status (result_of (PiHealthSimulator.main Examples.host_simulator
                            (Examples.host_simulator_world 503) 3)) = 0%Z /\
  exit_status (result_of (DHT11Sensor.main 1000 Examples.no_sensor 3)) = 1%Z.
Proof.
  pose proof C6_preflight_failure_is_terminal as (Hhost & Hsensor & Hsim & Hhsim & Hroot).
  repeat apply conj.
  - apply (Hhost Examples.monitor 0%Z Examples.unreachable_api 3%nat). reflexivity.
  - apply (Hsensor Examples.no_sensor 3%nat RuntimeError); reflexivity.
  - apply (Hsim Examples.sensor_simulator (Examples.sensor_simulator_world 503) 3%nat).
    discriminate.
  - apply (Hhsim Examples.host_simulator (Examples.host_simulator_world 503) 3%nat).
    discriminate.
  - apply (Hroot 1000%Z Examples.no_sensor 3%nat). discriminate.
Defined.

Lemma C6_counterexample :
  probe_failed (PiHealthMonitor.health_probe Examples.unreachable_api) /\
  count is_post (trace_of (PiHealthMonitor.main Examples.monitor 0
                             Examples.unreachable_api 3)) = 0%nat /\
  ~ exit_status (result_of (PiHealthMonitor.main Examples.monitor 0
                              Examples.unreachable_api 3)) <> 0%Z.
Proof.
  split; [reflexivity|]. split; [reflexivity|]. intros H. apply H. reflexivity.
Qed.

(** * Rounding and clamping *)

Lemma round_half_even_floor (x : Q) :
  round_half_even x = Qfloor x \/
  (round_half_even x = (Qfloor x + 1)%Z /\ (inject_Z (Qfloor x) < x)%Q).
Proof.
  unfold round_half_even.
  destruct (Qltb (x - inject_Z (Qfloor x)) (1 # 2)) eqn:E1; [left; reflexivity|].
  apply Qltb_ge in E1.
  assert (Hlt : (inject_Z (Qfloor x) < x)%Q) by lra.
  destruct (Qltb (1 # 2) (x - inject_Z (Qfloor x))); [right; split; auto|].
  destruct (Z.even (Qfloor x)); [left; reflexivity|right; split; auto].
Qed.

Lemma round_half_even_ge (x : Q) (z : Z) :
  (inject_Z z <= x)%Q -> (z <= round_half_even x)%Z.
Proof.
  intros H. apply Qfloor_resp_le in H. rewrite Qfloor_Z in H.
  destruct (round_half_even_floor x) as [->|[-> _]]; lia.
Qed.

Lemma round_half_even_le (x : Q) (z : Z) :
  (x <= inject_Z z)%Q -> (round_half_even x <= z)%Z.
Proof.
  intros H. pose proof (Qfloor_le x) as Hf.
  destruct (round_half_even_floor x) as [->|[-> Hlt]].
  - rewrite Zle_Qle. lra.
  - assert (Hz : (inject_Z (Qfloor x) < inject_Z z)%Q) by lra.
    rewrite <- Zlt_Qlt in Hz. lia.
Qed.

Lemma scale_pos (ndigits : nat) : (0 < inject_Z (10 ^ Z.of_nat ndigits))%Q.
Proof.
  change 0%Q with (inject_Z 0). rewrite <- Zlt_Qlt.
  apply Z.pow_pos_nonneg; lia.
Qed.

(** Rounding stays above a lower bound and below an upper bound that
    have at most [ndigits] decimals. *)
Lemma round_ge (x : Q) (ndigits : nat) (a : Q) (za : Z) :
  (a * inject_Z (10 ^ Z.of_nat ndigits) == inject_Z za)%Q ->
  (a <= x)%Q -> (a <= round x ndigits)%Q.
Proof.
  intros Ha H. unfold round. rewrite Qred_correct.
  pose proof (scale_pos ndigits) as Hs.
  set (scale := inject_Z (10 ^ Z.of_nat ndigits)) in *.
  apply Qle_shift_div_l; [exact Hs|]. rewrite Ha. rewrite <- Zle_Qle.
  apply round_half_even_ge. rewrite <- Ha. nra.
Qed.

Lemma round_le (x : Q) (ndigits : nat) (b : Q) (zb : Z) :
  (b * inject_Z (10 ^ Z.of_nat ndigits) == inject_Z zb)%Q ->
  (x <= b)%Q -> (round x ndigits <= b)%Q.
Proof.
  intros Hb H. unfold round. rewrite Qred_correct.
  pose proof (scale_pos ndigits) as Hs.
  set (scale := inject_Z (10 ^ Z.of_nat ndigits)) in *.
  apply Qle_shift_div_r; [exact Hs|]. rewrite Hb. rewrite <- Zle_Qle.
  apply round_half_even_le. rewrite <- Hb. nra.
Qed.

Lemma py_max_ge (a b : Q) : (a <= py_max a b)%Q.
Proof.
  unfold py_max. destruct (Qltb a b) eqn:E; [|lra]. apply Qltb_lt in E. lra.
Qed.

Lemma py_max_le (a b c : Q) : (a <= c)%Q -> (b <= c)%Q -> (py_max a b <= c)%Q.
Proof. unfold py_max. destruct (Qltb a b); auto. Qed.

Lemma py_min_le (a b : Q) : (py_min a b <= a)%Q.
Proof.
  unfold py_min. destruct (Qltb b a) eqn:E; [|lra]. apply Qltb_lt in E. lra.
Qed.

(** [max(lo, min(hi, x))] lies between the bounds. *)
Lemma clamp_bounds (lo hi x : Q) :
  (lo <= hi)%Q -> (lo <= py_max lo (py_min hi x) <= hi)%Q.
Proof.
  intros H. split; [apply py_max_ge|].
  apply py_max_le; [exact H|apply py_min_le].
Qed.

(** * The simulators *)

Section Synthesize.
Variables (math : math_module) (c : clock) (g : rng).

Lemma synthesize_bounds :
  let s := fst (PiHealthSimulator.synthesize math c g) in
  (20 <= PiHealthSimulator.cpu_temperature s <= 85)%Q /\
  (5 <= PiHealthSimulator.cpu_usage s <= 95)%Q /\
  (20 <= PiHealthSimulator.memory_usage s <= 90)%Q /\
  (40 <= PiHealthSimulator.disk_usage s <= 95)%Q /\
  (0.1 <= PiHealthSimulator.load_1m s)%Q.
Proof.
  destruct g as [str p].
  cbv beta iota zeta delta [PiHealthSimulator.synthesize random_uniform random_random
    fst stream pos PiHealthSimulator.cpu_temperature PiHealthSimulator.cpu_usage
    PiHealthSimulator.memory_usage PiHealthSimulator.disk_usage
    PiHealthSimulator.load_1m].
  repeat apply conj; try (apply clamp_bounds; discriminate); apply py_max_ge.
Qed.
End Synthesize.

Lemma generate_realistic_health_data_inv (self : PiHealthSimulator.t)
    (globals : gmap string pyobj) (c : clock) (g : rng)
    (d : gmap string json) (g' : rng) (t : list event) :
  PiHealthSimulator.generate_realistic_health_data self globals c g = (Returns (d, g'), t) ->
  exists math,
    d = PiHealthSimulator.health_data_of self c (fst (PiHealthSimulator.synthesize math c g)).
Proof.
  unfold PiHealthSimulator.generate_realistic_health_data, load_global. intros H.
  destruct (globals !! "datetime");
    cbn -[PiHealthSimulator.synthesize] in H; [|discriminate].
  destruct (globals !! "math") as [[m|]|];
    cbn -[PiHealthSimulator.synthesize] in H; try discriminate.
  destruct (globals !! "random");
    cbn -[PiHealthSimulator.synthesize] in H; [|discriminate].
  destruct (globals !! "time");
    cbn -[PiHealthSimulator.synthesize] in H; [|discriminate].
  exists m. destruct (PiHealthSimulator.synthesize m c g) as [s g2].
  cbn -[PiHealthSimulator.health_data_of] in H.
  injection H as <- _ _. reflexivity.
Qed.



(** C9, as the code has it. The primary metrics of the host simulator are
    base + amplitude * sin((hour - phase) * pi / 12) + uniform noise,
    clamped, so that whatever the sine and the draws are, cpuTemperature
    is in [20, 85], cpuUsage in [5, 95], memoryUsage in [20, 90],
    diskUsage in [40, 95] and loadAverage1m is at least 0.1, in the
    sample as computed and in the rounded payload; a pair the sensor
    simulator returns has its temperature in [-10, 50] and its humidity
    in [20, 80]. *)
Theorem C9_synthesized_values_clamped :
  (forall (math : math_module) (c : clock) (g : rng),
      let s := fst (PiHealthSimulator.synthesize math c g) in
      let hour := inject_Z (now_hour c) in
      let u0 := stream g (pos g) in
      let u1 := stream g (S (pos g)) in
      let u2 := stream g (S (S (pos g))) in
      let u3 := stream g (S (S (S (pos g)))) in
      PiHealthSimulator.cpu_temperature s
      = py_max 20 (py_min 85 (45 + 10 * sin math ((hour - 6) * pi math / 12)
                              + (-2 + (2 - -2) * u0)))%Q /\
      PiHealthSimulator.cpu_usage s
      = py_max 5 (py_min 95 (30 + 20 * sin math ((hour - 8) * pi math / 12)
                             + (-5 + (5 - -5) * u1)))%Q /\
      PiHealthSimulator.memory_usage s
      = py_max 20 (py_min 90 (50 + 20 * sin math ((hour - 8) * pi math / 12) * 0.8
                              + (-3 + (3 - -3) * u2)))%Q /\
      PiHealthSimulator.disk_usage s
      = py_max 40 (py_min 95 (60 + (-2 + (2 - -2) * u3)))%Q /\
      (20 <= PiHealthSimulator.cpu_temperature s <= 85)%Q /\
      (5 <= PiHealthSimulator.cpu_usage s <= 95)%Q /\
      (20 <= PiHealthSimulator.memory_usage s <= 90)%Q /\
      (40 <= PiHealthSimulator.disk_usage s <= 95)%Q /\
      (0.1 <= PiHealthSimulator.load_1m s)%Q) /\
  (forall (self : PiHealthSimulator.t) (globals : gmap string pyobj) (c : clock)
          (g g' : rng) (d : gmap string json) (t : list event),
      PiHealthSimulator.generate_realistic_health_data self globals c g
      = (Returns (d, g'), t) ->
      host_sample_in_range d) /\
  (forall (self : DHT11Simulator.t) (globals : gmap string pyobj) (c : clock)
          (g g' : rng) (temperature humidity : Q) (t : list event),
      DHT11Simulator.generate_realistic_data self globals c g
      = (Returns (temperature, humidity, g'), t) ->
      (-10 <= temperature <= 50)%Q /\ (20 <= humidity <= 80)%Q).
Proof.
  split; [|split].
  - intros math c g. pose proof (synthesize_bounds math c g) as Hb.
    cbv zeta in *. split; [|split; [|split; [|split; [|exact Hb]]]];
      destruct g as [str p]; reflexivity.
  - intros self globals c g g' d t H.
    apply generate_realistic_health_data_inv in H as (math & ->).
    destruct (synthesize_bounds math c g) as (B1 & B2 & B3 & B4 & B5).
    unfold host_sample_in_range, PiHealthSimulator.health_data_of.
    do 5 eexists. do 5 (split; [reflexivity|]).
    repeat apply conj.
    + apply (round_ge _ 2 20 2000); [reflexivity|apply B1].
    + apply (round_le _ 2 85 8500); [reflexivity|apply B1].
    + apply (round_ge _ 2 5 500); [reflexivity|apply B2].
    + apply (round_le _ 2 95 9500); [reflexivity|apply B2].
    + apply (round_ge _ 2 20 2000); [reflexivity|apply B3].
    + apply (round_le _ 2 90 9000); [reflexivity|apply B3].
    + apply (round_ge _ 2 40 4000); [reflexivity|apply B4].
    + apply (round_le _ 2 95 9500); [reflexivity|apply B4].
    + apply (round_ge _ 2 0.1 10); [reflexivity|apply B5].
  - intros self globals c g g' temperature humidity t.
    unfold DHT11Simulator.generate_realistic_data, load_global.
    destruct (globals !! "datetime"); cbn; [|discriminate].
    destruct (globals !! "math") as [[m|]|]; cbn; try discriminate.
    destruct (globals !! "random"); cbn; [|discriminate].
    destruct g as [str k].
    cbv beta iota zeta delta [random_uniform random_random stream pos ret].
    intros [= <- <- _ _].
    repeat apply conj.
    + apply (round_ge _ 1 (-10) (-100)); [reflexivity|apply clamp_bounds; discriminate].
    + apply (round_le _ 1 50 500); [reflexivity|apply clamp_bounds; discriminate].
    + apply (round_ge _ 1 20 200); [reflexivity|apply clamp_bounds; discriminate].
    + apply (round_le _ 1 80 800); [reflexivity|apply clamp_bounds; discriminate].
Qed.

Lemma C9_witness :
  host_sample_in_range
    (PiHealthSimulator.health_data_of Examples.host_simulator Examples.morning
       (fst (PiHealthSimulator.synthesize libm Examples.morning Examples.tenths))) /\
  ((-10 <= 23.1 <= 50)%Q /\ (20 <= 196 # 5 <= 80)%Q).
Proof.
  pose proof C9_synthesized_values_clamped as (_ & Hhost & Hsensor).
  split.
  - apply (Hhost Examples.host_simulator PiHealthSimulator.module_globals
             Examples.morning Examples.tenths
             {| stream := fun _ => 0.1%Q; pos := 12 |} _ []).
    reflexivity.
  - apply (Hsensor Examples.sensor_simulator Examples.patched_globals
             Examples.morning Examples.tenths
             {| stream := fun _ => 0.1%Q; pos := 2 |} 23.1%Q (196 # 5) []).
    vm_compute. reflexivity.
Defined.

Lemma C9_counterexample :
  exists (d : gmap string json) (g' : rng),
    result_of (PiHealthSimulator.generate_realistic_health_data Examples.host_simulator
                 PiHealthSimulator.module_globals Examples.morning Examples.tenths)
    = Returns (d, g') /\
    d !! "loadAverage5m" = Some (JNum (-3 # 50)) /\
    d !! "loadAverage15m" = Some (JNum (-7 # 50)) /\
    (-3 # 50 < 0)%Q /\ (-7 # 50 < 0)%Q.
Proof.
  eexists _, _. split; [reflexivity|].
  split; [vm_compute; reflexivity|]. split; [vm_compute; reflexivity|].
  split; reflexivity.
Qed.

(** * The sensor simulator and the name [math] *)

Section SensorSimulator.
Import DHT11Simulator.





End SensorSimulator.



(** * Further properties of the sensor agent *)

Section RetrySleeps.
Import DHT11Sensor.
Variables (dev : nat -> probe) (now : string).

Lemma attempt_body_sleeps (attempt : nat) :
  sleeps_one_second (trace_of (attempt_body dev now attempt)) /\
  (count is_sleep (trace_of (attempt_body dev now attempt)) <= 1)%nat.
Proof.
  unfold attempt_body, get_temperature, get_humidity, sleeps_one_second.
  destruct (temperature (dev attempt)) as [[t|]|e];
    [destruct (humidity (dev attempt)) as [[h|]|e]
    |destruct (humidity (dev attempt)) as [[h|]|e]|];
    cbn; repeat (case_if; cbn);
    (split; [repeat constructor|first [exact (Nat.le_refl 1) | exact Nat.le_0_1]]).
Qed.

Lemma for_attempt_in_sleeps (range : list nat) :
  sleeps_one_second (trace_of (for_attempt_in dev now range)) /\
  (count is_sleep (trace_of (for_attempt_in dev now range)) <= length range)%nat.
Proof.
  induction range as [|attempt rest [IH1 IH2]]; cbn -[attempt_body].
  - split; [constructor|lia].
  - destruct (attempt_body_sleeps attempt) as (H1 & H2). split.
    + apply bind_trace_Forall; [exact H1|]. intros [|d] _; [exact IH1|constructor].
    + rewrite count_bind.
      destruct (result_of (attempt_body dev now attempt)) as [[|d]|e]; cbn; lia.
Qed.

(** A tame attempt returns: with a reading, or to go on. *)
Lemma attempt_body_tame (attempt : nat) :
  tame (dev attempt) ->
  exists f, result_of (attempt_body dev now attempt) = Returns f.
Proof.
  intros (Ht & Hh). pose proof (attempt_body_classify dev now attempt) as Hc.
  cbn zeta in Hc. unfold classify in Hc. unfold tame_read in Ht, Hh.
  destruct (temperature (dev attempt)) as [t|e].
  - destruct (humidity (dev attempt)) as [h|e].
    + destruct t as [t|], h as [h|]; try (destruct Hc; eauto; fail).
      destruct (Qltb t (-100) || Qltb 100 t || Qltb h 0 || Qltb 100 h);
        [destruct Hc|]; eauto.
    + rewrite Hh in Hc. destruct Hc; eauto.
  - rewrite Ht in Hc. destruct Hc; eauto.
Qed.

Lemma for_attempt_in_tame (range : list nat) :
  (forall attempt, In attempt range -> tame (dev attempt)) ->
  exists r, result_of (for_attempt_in dev now range) = Returns r.
Proof.
  induction range as [|attempt rest IH]; cbn -[attempt_body]; intros Ht; [eauto|].
  destruct (attempt_body_tame attempt (Ht attempt (or_introl eq_refl))) as (f & Hf).
  rewrite (result_bind _ _ _ Hf). destruct f as [|d]; [|cbn; eauto].
  apply IH. intros a Ha. apply Ht. right. exact Ha.
Qed.

(** The loop stops at the first attempt that is in range. *)
Lemma for_attempt_in_first_valid (pre post : list nat) (k : nat) (t h : Q) :
  (forall attempt, In attempt pre -> rejected (dev attempt)) ->
  temperature (dev k) = Yields (Some t) ->
  humidity (dev k) = Yields (Some h) ->
  in_range t h ->
  let c := for_attempt_in dev now (pre ++ k :: post) in
  result_of c = Returns (Some {| sd_temperature := t; sd_humidity := h;
                                 sd_timestamp := now +:+ "Z" |}) /\
  count is_read_temperature (trace_of c) = S (length pre).
Proof.
  intros Hrej Ht Hh (B1 & B2 & B3 & B4).
  induction pre as [|a pre IH]; cbn -[attempt_body].
  - destruct (attempt_body_cases dev now k) as (Hr & _ & _).
    pose proof (attempt_body_classify dev now k) as Hc. cbn zeta in Hc.
    unfold classify in Hc. rewrite Ht, Hh in Hc.
    apply Qltb_ge in B1, B2, B3, B4. rewrite B1, B2, B3, B4 in Hc. cbn in Hc.
    rewrite count_bind, Hr, (result_bind _ _ _ Hc), Hc. cbn. split; reflexivity.
  - destruct (attempt_body_cases dev now a) as (Hr & _ & _).
    pose proof (attempt_body_classify dev now a) as Hc. cbn zeta in Hc.
    pose proof (Hrej a (or_introl eq_refl)) as Ha. unfold rejected in Ha.
    assert (Hcont : result_of (attempt_body dev now a) = Returns Continue).
    { destruct (classify (dev a)) as [t' h'| | |e]; [contradiction| | |];
        try (destruct Hc; assumption).
      rewrite Ha in Hc. destruct Hc; assumption. }
    destruct (IH (fun x Hx => Hrej x (or_intror Hx))) as (IH1 & IH2).
    rewrite count_bind, Hr, (result_bind _ _ _ Hcont), Hcont. cbn -[attempt_body].
    split; [exact IH1|]. f_equal. exact IH2.
Qed.
End RetrySleeps.

Lemma tally_bind {A B} (p q : event -> bool) (c : io A) (k : A -> io B)
    (a : A) (r : outcome B) (n1 m1 n2 m2 : nat) :
  tally p q c (Returns a) n1 m1 ->
  tally p q (k a) r n2 m2 ->
  tally p q (bind c k) r (n1 + n2) (m1 + m2).
Proof.
  intros (R1 & N1 & M1) (R2 & N2 & M2). unfold tally.
  rewrite !count_bind, (result_bind _ _ _ R1), R1, R2, N1, M1, N2, M2. auto.
Qed.

Lemma sleeps_one_second_not_interval (t : list event) :
  sleeps_one_second t -> count (is_sleep_of DHT11Sensor.READING_INTERVAL) t = 0%nat.
Proof.
  induction 1 as [|ev t Hev _ IH]; [reflexivity|].
  destruct ev; cbn; try exact IH. rewrite Hev. exact IH.
Qed.

Section SensorCalls.
Import DHT11Sensor.

Lemma read_sensor_data_sleeps (self : t) (call : nat) (now : string) :
  sleeps_one_second (trace_of (read_sensor_data self call now)) /\
  (count is_sleep (trace_of (read_sensor_data self call now)) <= MAX_RETRIES)%nat.
Proof.
  unfold read_sensor_data. destruct (dht_device self) as [dev|].
  - destruct (for_attempt_in_sleeps (dev call) now (seq 0 MAX_RETRIES)) as (H1 & H2).
    rewrite length_seq in H2.
    set (c := for_attempt_in (dev call) now (seq 0 MAX_RETRIES)) in *. clearbody c.
    split.
    + apply bind_trace_Forall; [exact H1|]. intros [d|] _; repeat constructor.
    + rewrite count_bind. destruct (result_of c) as [[d|]|e]; cbn; lia.
  - split; [repeat constructor|cbn; lia].
Qed.

Lemma read_sensor_data_tame (self : t) (dev : driver) (call : nat) (now : string) :
  dht_device self = Some dev ->
  (forall attempt, tame (dev call attempt)) ->
  exists r, result_of (read_sensor_data self call now) = Returns r.
Proof.
  intros Hdev Ht. unfold read_sensor_data. rewrite Hdev.
  destruct (for_attempt_in_tame (dev call) now (seq 0 MAX_RETRIES)) as (r & Hr);
    [intros a _; apply Ht|].
  rewrite (result_bind _ _ _ Hr). destruct r as [d|]; cbn; eauto.
Qed.

Lemma send_to_api_transport (self : t) (d : sensor_data) (r : http_result) :
  transport_level r ->
  let c := send_to_api self (Some d) r in
  (exists b, result_of c = Returns b) /\
  count is_post (trace_of c) = 1%nat /\
  count (is_sleep_of READING_INTERVAL) (trace_of c) = 0%nat /\
  head (trace_of c)
  = Some (Post (api_url self +:+ "/dht11-sensor/readings") (payload_of self d)).
Proof.
  unfold send_to_api, session_post, transport_level.
  destruct r as [code text|e]; cbn -[is_RequestException payload_of].
  - intros _. destruct (code =? 201)%Z; cbn -[payload_of]; repeat split; eauto.
  - intros He. rewrite He. cbn -[payload_of]. repeat split; eauto.
Qed.

(** The loop of the sensor agent when neither the driver nor the
    transport lets an unexpected exception through: every cycle is
    completed. *)
Lemma while_true_completes (self : t) (dev : driver) (w : env) (fuel cycle : nat) :
  dht_device self = Some dev ->
  (forall c attempt, tame (dev c attempt)) ->
  (forall c, transport_level (api w c)) ->
  exists posts,
    tally (is_sleep_of READING_INTERVAL) is_post (while_true self w cycle fuel)
      (Raised KeyboardInterrupt) fuel posts /\
    (posts <= fuel)%nat.
Proof.
  intros Hdev Ht Ha. revert cycle.
  induction fuel as [|fuel IH]; intros cycle; cbn [while_true].
  - exists 0%nat. split; [repeat split|lia].
  - destruct (read_sensor_data_tame self dev cycle (utcnow w cycle) Hdev (Ht cycle))
      as (data & Hdata).
    destruct (read_sensor_data_sleeps self cycle (utcnow w cycle)) as (Hs & _).
    apply sleeps_one_second_not_interval in Hs.
    destruct (read_sensor_data_spec self cycle (utcnow w cycle)) as (_ & Hp & _ & _).
    destruct (IH (S cycle)) as (posts & IHt & IHle).
    assert (Hreport : exists k,
      tally (is_sleep_of READING_INTERVAL) is_post
        (match data with
         | Some _ =>
             success <- send_to_api self data (api w cycle) ;;
             if negb success then
               log WARNING "Failed to send data to API, but continuing..."
             else ret tt
         | None => ret tt
         end) (Returns tt) 0 k /\ (k <= 1)%nat).
    { destruct data as [d|]; [|exists 0%nat; split; [repeat split|lia]].
      destruct (send_to_api_transport self d (api w cycle) (Ha cycle))
        as ((b & Hb) & Hpost & Hsl & _).
      exists 1%nat. split; [|lia].
      eapply (tally_bind _ _ _ _ _ _ 0 1 0 0); [repeat split; eassumption|].
      destruct b; repeat split. }
    destruct Hreport as (k & Hk & Hk1).
    exists (k + posts)%nat. split; [|lia].
    eapply (tally_bind _ _ _ _ _ _ 0 0 (S fuel) (k + posts)); [repeat split; eassumption|].
    eapply (tally_bind _ _ _ _ _ _ 0 k (S fuel) posts); [exact Hk|].
    eapply (tally_bind _ _ _ _ _ _ 1 0 fuel posts); [repeat split|].
    exact IHt.
Qed.
End SensorCalls.

(** X1. [initialize_sensor] answers [True] exactly when the driver object
    could be created, and then the object holds it; after a failed
    initialisation the object is unchanged, and [read_sensor_data] on an
    object without a driver returns [None] at once, without a read of the
    sensor and without a sleep. *)
Theorem X1_initialisation_and_unset_sensor :
  forall (self : DHT11Sensor.t) (hw : outcome DHT11Sensor.driver),
    caught hw ->
    exists ok self',
      result_of (DHT11Sensor.initialize_sensor self hw) = Returns (ok, self') /\
      (forall d, hw = Returns d ->
                 ok = true /\ DHT11Sensor.dht_device self' = Some d) /\
      (failed hw -> ok = false /\ self' = self) /\
      (DHT11Sensor.dht_device self' = None ->
       forall call now,
         DHT11Sensor.read_sensor_data self' call now
         = (Returns None, [Log ERROR "Sensor not initialized"])).
Proof.
  intros self hw Hc. unfold DHT11Sensor.initialize_sensor.
  destruct hw as [d|e]; cbn -[is_Exception] in *.
  - eexists _, _. split; [reflexivity|]. split; [|split].
    + intros d' [= <-]. split; reflexivity.
    + intros (e & [=]).
    + discriminate.
  - rewrite Hc. cbn. exists false, self. split; [reflexivity|]. split; [|split].
    + discriminate.
    + intros _. split; reflexivity.
    + intros Hnone call now. unfold DHT11Sensor.read_sensor_data. rewrite Hnone.
      reflexivity.
Qed.

Lemma X1_witness :
  exists ok self',
    result_of (DHT11Sensor.initialize_sensor
                 {| DHT11Sensor.gpio_pin := 4;
                    DHT11Sensor.device_id := DHT11Sensor.DEVICE_ID;
                    DHT11Sensor.api_url := DHT11Sensor.API_BASE_URL;
                    DHT11Sensor.dht_device := None |} (Raised OSError))
    = Returns (ok, self') /\ ok = false /\
    DHT11Sensor.read_sensor_data self' 0 "t"
    = (Returns None, [Log ERROR "Sensor not initialized"]).
Proof.
  destruct (X1_initialisation_and_unset_sensor
              {| DHT11Sensor.gpio_pin := 4;
                 DHT11Sensor.device_id := DHT11Sensor.DEVICE_ID;
                 DHT11Sensor.api_url := DHT11Sensor.API_BASE_URL;
                 DHT11Sensor.dht_device := None |} (Raised OSError) eq_refl)
    as (ok & self' & R & _ & F & U).
  destruct (F (ex_intro _ OSError eq_refl)) as (Hok & Hself).
  exists ok, self'. split; [exact R|]. split; [exact Hok|].
  apply U. rewrite Hself. reflexivity.
Defined.

(** X2. Within one call of [read_sensor_data] every sleep lasts one
    second and there are at most [MAX_RETRIES] of them; a sensor that
    raises on every attempt costs [MAX_RETRIES - 1] sleeps (none after the
    last attempt), a sensor that answers without a temperature on every
    attempt costs [MAX_RETRIES] sleeps (one more after the last
    attempt). *)
Theorem X2_retry_sleep_budget :
  forall (self : DHT11Sensor.t) (call : nat) (now : string),
    let t := trace_of (DHT11Sensor.read_sensor_data self call now) in
    sleeps_one_second t /\
    (count is_sleep t <= DHT11Sensor.MAX_RETRIES)%nat /\
    (forall dev, DHT11Sensor.dht_device self = Some dev ->
       (forall attempt, exists e,
           DHT11Sensor.temperature (dev call attempt) = DHT11Sensor.Throws e /\
           is_Exception e = true) ->
       count is_sleep t = (DHT11Sensor.MAX_RETRIES - 1)%nat) /\
    (forall dev, DHT11Sensor.dht_device self = Some dev ->
       (forall attempt,
           DHT11Sensor.temperature (dev call attempt) = DHT11Sensor.Yields None) ->
       (forall attempt, exists h,
           DHT11Sensor.humidity (dev call attempt) = DHT11Sensor.Yields h) ->
       count is_sleep t = DHT11Sensor.MAX_RETRIES).
Proof.
  intros self call now t. subst t.
  destruct (read_sensor_data_sleeps self call now) as (H1 & H2).
  split; [exact H1|]. split; [exact H2|]. split.
  - intros dev Hdev Hraise. unfold DHT11Sensor.read_sensor_data. rewrite Hdev.
    destruct (Hraise 0%nat) as (e0 & T0 & E0), (Hraise 1%nat) as (e1 & T1 & E1),
      (Hraise 2%nat) as (e2 & T2 & E2).
    change (seq 0 DHT11Sensor.MAX_RETRIES) with [0; 1; 2]%nat.
    cbn [DHT11Sensor.for_attempt_in].
    unfold DHT11Sensor.attempt_body, DHT11Sensor.get_temperature.
    rewrite T0, T1, T2. cbn -[is_Exception]. rewrite E0. cbn -[is_Exception].
    rewrite E1. cbn -[is_Exception]. rewrite E2. reflexivity.
  - intros dev Hdev Hnone Hhum. unfold DHT11Sensor.read_sensor_data. rewrite Hdev.
    destruct (Hhum 0%nat) as (h0 & U0), (Hhum 1%nat) as (h1 & U1),
      (Hhum 2%nat) as (h2 & U2).
    change (seq 0 DHT11Sensor.MAX_RETRIES) with [0; 1; 2]%nat.
    cbn [DHT11Sensor.for_attempt_in].
    unfold DHT11Sensor.attempt_body, DHT11Sensor.get_temperature,
      DHT11Sensor.get_humidity.
    rewrite (Hnone 0%nat), (Hnone 1%nat), (Hnone 2%nat), U0, U1, U2. reflexivity.
Qed.

Lemma X2_witness :
  count is_sleep
    (trace_of (DHT11Sensor.read_sensor_data
                 (Examples.sensor_with Examples.always_raising) 0 "t")) = 2%nat /\
  count is_sleep
    (trace_of (DHT11Sensor.read_sensor_data
                 (Examples.sensor_with Examples.always_missing) 0 "t")) = 3%nat.
Proof.
  split.
  - apply (proj1 (proj2 (proj2 (X2_retry_sleep_budget
                                  (Examples.sensor_with Examples.always_raising)
                                  0%nat "t")))
             Examples.always_raising eq_refl).
    intros attempt. exists RuntimeError. split; reflexivity.
  - apply (proj2 (proj2 (proj2 (X2_retry_sleep_budget
                                  (Examples.sensor_with Examples.always_missing)
                                  0%nat "t")))
             Examples.always_missing eq_refl).
    + intros attempt. reflexivity.
    + intros attempt. exists None. reflexivity.
Defined.

(** X3. [read_sensor_data] returns the first reading that is in range,
    the bounds -100, 100, 0 and 100 included, unchanged and stamped with
    the clock followed by [Z]: when the attempts before attempt [k] are
    rejected and attempt [k] delivers values in range, the call returns
    these values after exactly [k + 1] reads of the temperature. *)
Theorem X3_first_reading_in_range_is_returned :
  forall (self : DHT11Sensor.t) (dev : DHT11Sensor.driver) (call : nat) (now : string)
         (k : nat) (t h : Q),
    DHT11Sensor.dht_device self = Some dev ->
    (k < DHT11Sensor.MAX_RETRIES)%nat ->
    (forall attempt, (attempt < k)%nat -> rejected (dev call attempt)) ->
    DHT11Sensor.temperature (dev call k) = DHT11Sensor.Yields (Some t) ->
    DHT11Sensor.humidity (dev call k) = DHT11Sensor.Yields (Some h) ->
    in_range t h ->
    let c := DHT11Sensor.read_sensor_data self call now in
    result_of c
    = Returns (Some {| DHT11Sensor.sd_temperature := t;
                       DHT11Sensor.sd_humidity := h;
                       DHT11Sensor.sd_timestamp := now +:+ "Z" |}) /\
    count is_read_temperature (trace_of c) = S k.
Proof.
  intros self dev call now k t h Hdev Hk Hrej Ht Hh Hin.
  unfold DHT11Sensor.read_sensor_data. rewrite Hdev.
  assert (Hseq : seq 0 DHT11Sensor.MAX_RETRIES
                 = seq 0 k ++ k :: seq (S k) (DHT11Sensor.MAX_RETRIES - S k)).
  { replace DHT11Sensor.MAX_RETRIES with (k + S (DHT11Sensor.MAX_RETRIES - S k))%nat
      at 1 by lia.
    rewrite seq_app. reflexivity. }
  rewrite Hseq.
  destruct (for_attempt_in_first_valid (dev call) now (seq 0 k)
              (seq (S k) (DHT11Sensor.MAX_RETRIES - S k)) k t h) as (R & N); auto.
  { intros a Ha. apply Hrej. apply in_seq in Ha. lia. }
  rewrite length_seq in N. cbv zeta.
  rewrite count_bind, (result_bind _ _ _ R), R, N. cbn. split; [reflexivity|lia].
Qed.

Lemma X3_witness :
  result_of (DHT11Sensor.read_sensor_data
               (Examples.sensor_with Examples.third_time_lucky) 0 "2023-11-14T22:15:00")
  = Returns (Some {| DHT11Sensor.sd_temperature := 100;
                     DHT11Sensor.sd_humidity := 100;
                     DHT11Sensor.sd_timestamp := "2023-11-14T22:15:00Z" |}) /\
  count is_read_temperature
    (trace_of (DHT11Sensor.read_sensor_data
                 (Examples.sensor_with Examples.third_time_lucky) 0
                 "2023-11-14T22:15:00")) = 3%nat.
Proof.
  apply (X3_first_reading_in_range_is_returned
           (Examples.sensor_with Examples.third_time_lucky) Examples.third_time_lucky
           0%nat "2023-11-14T22:15:00" 2%nat 100%Q 100%Q eq_refl).
  - unfold DHT11Sensor.MAX_RETRIES. lia.
  - intros attempt Hlt. destruct attempt as [|[|attempt]]; [exact I|exact I|lia].
  - reflexivity.
  - reflexivity.
  - repeat split; discriminate.
Defined.

(** X4. [send_to_api] makes no request for a missing reading and exactly
    one POST, to the readings endpoint of the configured API, for a
    reading; the payload has the seven keys of the wire format and
    carries the device identifier of the object and the temperature,
    humidity and timestamp of the reading unchanged. *)
Theorem X4_sensor_payload :
  forall (self : DHT11Sensor.t) (d : DHT11Sensor.sensor_data) (r : http_result),
    DHT11Sensor.send_to_api self None r = (Returns false, []) /\
    count is_post (trace_of (DHT11Sensor.send_to_api self (Some d) r)) = 1%nat /\
    head (trace_of (DHT11Sensor.send_to_api self (Some d) r))
    = Some (Post (DHT11Sensor.api_url self +:+ "/dht11-sensor/readings")
              (DHT11Sensor.payload_of self d)) /\
    dom (DHT11Sensor.payload_of self d) = sensor_payload_keys /\
    DHT11Sensor.payload_of self d !! "deviceId"
    = Some (JStr (DHT11Sensor.device_id self)) /\
    DHT11Sensor.payload_of self d !! "temperature"
    = Some (JNum (DHT11Sensor.sd_temperature d)) /\
    DHT11Sensor.payload_of self d !! "humidity"
    = Some (JNum (DHT11Sensor.sd_humidity d)) /\
    DHT11Sensor.payload_of self d !! "timestamp"
    = Some (JStr (DHT11Sensor.sd_timestamp d)) /\
    DHT11Sensor.payload_of self d !! "gpioPin" = Some (JInt 4) /\
    DHT11Sensor.payload_of self d !! "sensorType" = Some (JStr "DHT11").
Proof.
  intros self d r. split; [reflexivity|].
  split; [|split; [|split]].
  - unfold DHT11Sensor.send_to_api, session_post.
    destruct r as [code text|e]; cbn -[DHT11Sensor.payload_of].
    + destruct (code =? 201)%Z; reflexivity.
    + destruct (is_RequestException e); reflexivity.
  - unfold DHT11Sensor.send_to_api, session_post.
    destruct r as [code text|e]; cbn -[DHT11Sensor.payload_of].
    + destruct (code =? 201)%Z; reflexivity.
    + destruct (is_RequestException e); reflexivity.
  - unfold DHT11Sensor.payload_of, sensor_payload_keys.
    rewrite dom_list_to_map_L. cbn. set_solver.
  - repeat split; reflexivity.
Qed.

(** X5. Failures of a cycle do not end the loop of the sensor agent: with
    a driver that was created and fails only with exceptions of class
    [Exception], and an API that answers or fails at the transport level,
    the agent completes every cycle until the operator's interrupt (one
    sleep of [READING_INTERVAL] per cycle, at most one POST per cycle) and
    [run] returns normally. *)
Theorem X5_sensor_loop_survives_failures :
  forall (self : DHT11Sensor.t) (drv : DHT11Sensor.driver) (w : DHT11Sensor.env)
         (fuel : nat),
    DHT11Sensor.hardware w = Returns drv ->
    (forall cycle attempt, tame (drv cycle attempt)) ->
    (forall cycle, transport_level (DHT11Sensor.api w cycle)) ->
    let c := DHT11Sensor.run self w fuel in
    result_of c = Returns tt /\
    count (is_sleep_of DHT11Sensor.READING_INTERVAL) (trace_of c) = fuel /\
    (count is_post (trace_of c) <= fuel)%nat.
Proof.
  intros self drv w fuel Hhw Ht Ha.
  unfold DHT11Sensor.run, DHT11Sensor.initialize_sensor. rewrite Hhw.
  cbn -[DHT11Sensor.while_true].
  set (self' := {| DHT11Sensor.gpio_pin := DHT11Sensor.gpio_pin self;
                   DHT11Sensor.device_id := DHT11Sensor.device_id self;
                   DHT11Sensor.api_url := DHT11Sensor.api_url self;
                   DHT11Sensor.dht_device := Some drv |}).
  destruct (while_true_completes self' drv w fuel 0 eq_refl Ht Ha)
    as (posts & (R & N & M) & Hle).
  destruct (DHT11Sensor.while_true self' w 0 fuel) as [r t]. cbn in R, N, M.
  subst r. cbn. rewrite !count_app, N, M. cbn. repeat split; lia.
Qed.

Lemma X5_witness :
  result_of (DHT11Sensor.run (Examples.sensor_with Examples.fine)
               Examples.flaky_world 4) = Returns tt /\
  count (is_sleep_of DHT11Sensor.READING_INTERVAL)
    (trace_of (DHT11Sensor.run (Examples.sensor_with Examples.fine)
                 Examples.flaky_world 4)) = 4%nat /\
  (count is_post
     (trace_of (DHT11Sensor.run (Examples.sensor_with Examples.fine)
                  Examples.flaky_world 4)) <= 4)%nat.
Proof.
  apply (X5_sensor_loop_survives_failures (Examples.sensor_with Examples.fine)
           Examples.third_time_lucky Examples.flaky_world 4%nat eq_refl).
  - intros cycle [|[|[|attempt]]]; split; exact I.
  - intros cycle. cbn. destruct (Nat.even cycle); [exact I|reflexivity].
Defined.



Section MonitorSidecar.
Import PiHealthMonitor.
Variable self : t.


End MonitorSidecar.



(** * Further properties of the host agent *)

Lemma guarded_bind {A B} (Q : A -> Prop) (P : B -> Prop) (c : io A) (k : A -> io B) :
  guarded Q c -> (forall a, Q a -> guarded P (k a)) -> guarded P (bind c k).
Proof.
  intros (HQ & HE) Hk. destruct c as [[a|e] t]; cbn in *.
  - destruct (Hk a (HQ a eq_refl)) as (HP & HE'). destruct (k a) as [r t2]; cbn in *.
    split; assumption.
  - split; [discriminate|]. intros e' [= <-]. apply HE. reflexivity.
Qed.

(** [try: c except Exception: h] with a handler that returns. *)
Lemma guarded_try_except {A} (P : A -> Prop) (c : io A) (h : exn -> io A) :
  (forall a, result_of c = Returns a -> P a) ->
  (forall e, guarded P (h e)) ->
  guarded P (try_except c is_Exception h).
Proof.
  intros HP Hh. destruct c as [[a|e] t]; cbn in *.
  - split; [exact HP|discriminate].
  - destruct (is_Exception e) eqn:E.
    + destruct (Hh e) as (H1 & H2). destruct (h e) as [r t2]; cbn in *. split; assumption.
    + cbn. split; [discriminate|]. intros e' [= <-]. exact E.
Qed.

Lemma guarded_from_source {A} (o : outcome A) (h : exn -> io A) :
  (forall e, guarded (fun _ => True) (h e)) ->
  guarded (fun _ => True) (try_except (from_source o) is_Exception h).
Proof. intros Hh. apply guarded_try_except; auto. Qed.

Section GuardedGetters.
Import PiHealthMonitor.
Variables (self : t) (s : sources).

Lemma get_cpu_temperature_guarded : guarded (fun _ => True) (get_cpu_temperature s).
Proof.
  unfold get_cpu_temperature. apply guarded_try_except; [auto|guarded_handler].
Qed.

Lemma get_cpu_usage_guarded : guarded (fun _ => True) (get_cpu_usage s).
Proof. unfold get_cpu_usage. apply guarded_try_except; [auto|guarded_handler]. Qed.

Lemma get_memory_usage_guarded : guarded (fun _ => True) (get_memory_usage s).
Proof. unfold get_memory_usage. apply guarded_try_except; [auto|guarded_handler]. Qed.

Lemma get_disk_usage_guarded : guarded (fun _ => True) (get_disk_usage s).
Proof. unfold get_disk_usage. apply guarded_try_except; [auto|guarded_handler]. Qed.

Lemma get_network_usage_guarded : guarded (fun _ => True) (get_network_usage s).
Proof. unfold get_network_usage. apply guarded_try_except; [auto|guarded_handler]. Qed.

Lemma get_system_load_guarded : guarded (fun _ => True) (get_system_load s).
Proof. unfold get_system_load. apply guarded_try_except; [auto|guarded_handler]. Qed.

Lemma get_uptime_guarded : guarded (fun _ => True) (get_uptime s).
Proof. unfold get_uptime. apply guarded_try_except; [auto|guarded_handler]. Qed.

Lemma get_cpu_voltage_guarded : guarded (fun _ => True) (get_cpu_voltage s).
Proof. unfold get_cpu_voltage. apply guarded_try_except; [auto|guarded_handler]. Qed.

Lemma get_cpu_frequency_guarded : guarded (fun _ => True) (get_cpu_frequency s).
Proof. unfold get_cpu_frequency. apply guarded_try_except; [auto|guarded_handler]. Qed.

Lemma collect_health_data_guarded :
  guarded complete_sample (collect_health_data self s).
Proof.
  unfold collect_health_data.
  assert (Hinner : forall c : io (option (gmap string json)),
             guarded complete_sample c ->
             guarded complete_sample
               (try_except c is_Exception
                  (fun e => log ERROR "Error collecting health data" ;;; ret None))).
  { intros c (H1 & H2). destruct c as [[a|e] t]; cbn in *.
    - split; [exact H1|discriminate].
    - rewrite (H2 e eq_refl). cbn. split; [discriminate|exact H2]. }
  apply Hinner.
  eapply guarded_bind; [apply get_cpu_temperature_guarded|intros cpu_temp _].
  eapply guarded_bind; [apply get_cpu_usage_guarded|intros cpu_usage _].
  eapply guarded_bind; [apply get_memory_usage_guarded|intros memory_usage _].
  eapply guarded_bind; [apply get_disk_usage_guarded|intros disk _].
  eapply guarded_bind; [apply get_network_usage_guarded|intros network_usage _].
  eapply guarded_bind; [apply get_system_load_guarded|intros load_avg _].
  eapply guarded_bind; [apply get_uptime_guarded|intros uptime _].
  eapply guarded_bind; [apply get_cpu_voltage_guarded|intros voltage _].
  eapply guarded_bind; [apply get_cpu_frequency_guarded|intros frequency _].
  split; [|discriminate].
  intros a [= <-]. unfold complete_sample. eexists. split; [reflexivity|].
  destruct voltage, frequency;
    (split; [reflexivity|]); unfold host_sample_keys;
    repeat (constructor; [eexists; reflexivity|]); constructor.
Qed.
End GuardedGetters.

(** X7. [collect_health_data] never returns [None] and lets no [Exception]
    escape, whatever the metric sources do: when it returns, it returns a
    non-empty dictionary with all thirteen keys of the wire format, so the
    test [if health_data:] of the loop always passes; only an exception
    that is not an [Exception] (the operator's interrupt) comes out. *)
Theorem X7_collection_always_yields_a_sample :
  forall (self : PiHealthMonitor.t) (s : PiHealthMonitor.sources),
    (forall d, result_of (PiHealthMonitor.collect_health_data self s) = Returns d ->
               complete_sample d) /\
    (forall e, result_of (PiHealthMonitor.collect_health_data self s) = Raised e ->
               is_Exception e = false).
Proof. intros self s. apply collect_health_data_guarded. Qed.

Lemma X7_witness :
  (exists d, result_of (PiHealthMonitor.collect_health_data Examples.monitor
                          Examples.degraded_host) = Returns d /\ complete_sample d) /\
  is_Exception KeyboardInterrupt = false.
Proof.
  split.
  - eexists. split; [reflexivity|].
    apply (proj1 (X7_collection_always_yields_a_sample Examples.monitor
                    Examples.degraded_host)).
    reflexivity.
  - apply (proj2 (X7_collection_always_yields_a_sample Examples.monitor
                    Examples.interrupted_host)).
    reflexivity.
Defined.



Section HostCycleFacts.
Import PiHealthMonitor.
Variables (self : t) (w : env) (cycle : nat).
Hypothesis Hsources : no_interrupt (metric_sources w cycle).
Hypothesis Hapi : transport_level (api w cycle).
Hypothesis Hstatus : transport_level (status w cycle).
Hypothesis Hrecs : transport_level (recommendations w cycle).


End HostCycleFacts.





Lemma py_mod_lt (now : Q) : (py_mod now 300 < 300)%Q.
Proof.
  unfold py_mod. pose proof (Qlt_floor (now / 300)) as Hf.
  assert (Ht : (now == 300 * (now / 300))%Q) by (field; discriminate).
  rewrite inject_Z_plus in Hf. change (inject_Z 1) with 1%Q in Hf.
  set (q := (now / 300)%Q) in *. set (f := inject_Z (Qfloor q)) in *. lra.
Qed.

(** X11. The edges of the time test of the sidecar queries: with an
    interval of 300 seconds or more the test passes at every time, so
    the queries follow every accepted sample; with an interval of zero
    or less it never passes, so no cycle runs them. *)
Theorem X11_sidecar_test_edges :
  forall (self : PiHealthMonitor.t),
    ((300 <= PiHealthMonitor.interval self)%Z ->
     forall now, PiHealthMonitor.sidecar_due self now = true) /\
    ((PiHealthMonitor.interval self <= 0)%Z ->
     (forall now, PiHealthMonitor.sidecar_due self now = false) /\
     (forall w cycle, ~ sidecar_invoked self w cycle)).
Proof.
  intros self. split.
  - intros Hi now. apply sidecar_due_lt. pose proof (py_mod_lt now) as H.
    assert (Hq : (inject_Z 300 <= inject_Z (PiHealthMonitor.interval self))%Q)
      by (rewrite <- Zle_Qle; exact Hi).
    change (inject_Z 300) with 300%Q in Hq. lra.
  - intros Hi.
    assert (Hnever : forall now, PiHealthMonitor.sidecar_due self now = false).
    { intros now. apply Qltb_ge. pose proof (py_mod_nonneg now) as H.
      assert (Hq : (inject_Z (PiHealthMonitor.interval self) <= inject_Z 0)%Q)
        by (rewrite <- Zle_Qle; exact Hi).
      change (inject_Z 0) with 0%Q in Hq. lra. }
    split; [exact Hnever|].
    intros w cycle H. apply sidecar_invoked_only_if in H as (_ & Hd).
    rewrite Hnever in Hd. discriminate.
Qed.

Lemma X11_witness :
  PiHealthMonitor.sidecar_due Examples.slow_monitor 1700000299 = true /\
  PiHealthMonitor.sidecar_due Examples.hasty_monitor 1700000100 = false.
Proof.
  split.
  - apply (proj1 (X11_sidecar_test_edges Examples.slow_monitor)). discriminate.
  - apply (proj2 (X11_sidecar_test_edges Examples.hasty_monitor)). discriminate.
Defined.

(** * The read requests *)

(** X12. The connectivity check of the host agent and of the two
    simulators answers [True] exactly when the health endpoint answers
    with status 200 (201 is not enough); a [RequestException] makes it
    answer [False], not raise; each check is one GET. *)
Theorem X12_connectivity_check :
  (forall (self : PiHealthMonitor.t) (r : http_result),
      (result_of (PiHealthMonitor.test_api_connection self r) = Returns true
       <-> exists text, r = Response 200 text) /\
      (transport_level r ->
       exists b, result_of (PiHealthMonitor.test_api_connection self r) = Returns b) /\
      trace_of (PiHealthMonitor.test_api_connection self r) !! 0%nat
      = Some (Get (PiHealthMonitor.api_url self +:+ "/pi-health/health")) /\
      count is_get (trace_of (PiHealthMonitor.test_api_connection self r)) = 1%nat) /\
  (forall (self : DHT11Simulator.t) (r : http_result),
      (result_of (DHT11Simulator.test_api_connection self r) = Returns true
       <-> exists text, r = Response 200 text) /\
      (transport_level r ->
       exists b, result_of (DHT11Simulator.test_api_connection self r) = Returns b) /\
      trace_of (DHT11Simulator.test_api_connection self r) !! 0%nat
      = Some (Get (DHT11Simulator.api_url self +:+ "/dht11-sensor/health")) /\
      count is_get (trace_of (DHT11Simulator.test_api_connection self r)) = 1%nat) /\
  (forall (self : PiHealthSimulator.t) (r : http_result),
      (result_of (PiHealthSimulator.test_api_connection self r) = Returns true
       <-> exists text, r = Response 200 text) /\
      (transport_level r ->
       exists b, result_of (PiHealthSimulator.test_api_connection self r) = Returns b) /\
      trace_of (PiHealthSimulator.test_api_connection self r) !! 0%nat
      = Some (Get (PiHealthSimulator.api_url self +:+ "/pi-health/health")) /\
      count is_get (trace_of (PiHealthSimulator.test_api_connection self r)) = 1%nat).
Proof.
  repeat apply conj; intros self r;
    try unfold PiHealthMonitor.test_api_connection;
    try unfold DHT11Simulator.test_api_connection;
    try unfold PiHealthSimulator.test_api_connection;
    get_cases r; repeat apply conj;
    try reflexivity; try discriminate; eauto;
    try (intros _; apply Z.eqb_eq in Ecode; subst code; eauto);
    try (intros (text' & [= -> _]); discriminate);
    try (intros (text' & [=])).
Qed.

Lemma X12_witness :
  result_of (PiHealthMonitor.test_api_connection Examples.monitor (Response 201 "created"))
  = Returns false /\
  exists b, result_of (DHT11Simulator.test_api_connection Examples.sensor_simulator
                         (Fails Timeout)) = Returns b.
Proof.
  pose proof X12_connectivity_check as (Hm & Hs & _).
  split.
  - destruct (result_of (PiHealthMonitor.test_api_connection Examples.monitor
                           (Response 201 "created"))) as [[|]|e] eqn:E;
      [|reflexivity|discriminate].
    apply (proj1 (Hm Examples.monitor (Response 201 "created"))) in E
      as (text & [=]).
  - apply (proj1 (proj2 (Hs Examples.sensor_simulator (Fails Timeout)))). reflexivity.
Defined.



(** * Further properties of the host simulator *)

Lemma round_between (x : Q) (ndigits : nat) (lo hi : Q) (zlo zhi : Z) :
  (lo * inject_Z (10 ^ Z.of_nat ndigits) == inject_Z zlo)%Q ->
  (hi * inject_Z (10 ^ Z.of_nat ndigits) == inject_Z zhi)%Q ->
  (lo <= x)%Q -> (x <= hi)%Q ->
  (lo <= round x ndigits)%Q /\ (round x ndigits <= hi)%Q.
Proof.
  intros Hlo Hhi H1 H2. split; [eapply round_ge|eapply round_le]; eassumption.
Qed.

Lemma py_max_cases (a b : Q) :
  (py_max a b = a /\ (b <= a)%Q) \/ (py_max a b = b /\ (a < b)%Q).
Proof.
  unfold py_max. destruct (Qltb a b) eqn:E.
  - right. split; [reflexivity|apply Qltb_lt, E].
  - left. split; [reflexivity|apply Qltb_ge, E].
Qed.

Section UnitDraws.
Variables (math : math_module) (c : clock) (g : rng).
Hypothesis Hg : unit_draws g.

(** The secondary metrics of a sample drawn from a proper random source. *)
Lemma synthesize_unit_bounds :
  let s := fst (PiHealthSimulator.synthesize math c g) in
  (58 <= PiHealthSimulator.disk_usage s <= 62)%Q /\
  (0.1 <= PiHealthSimulator.load_1m s <= 2.4)%Q /\
  (-0.12 <= PiHealthSimulator.load_5m s <= 2.12)%Q /\
  (-0.208 <= PiHealthSimulator.load_15m s <= 2.008)%Q /\
  (0 <= PiHealthSimulator.network_upload s <= 10)%Q /\
  (0 <= PiHealthSimulator.network_download s <= 20)%Q /\
  (time_time c - 3600 <= PiHealthSimulator.uptime s <= time_time c + 3600)%Q /\
  (4.6 <= PiHealthSimulator.voltage s <= 5)%Q /\
  (1300 <= PiHealthSimulator.frequency s <= 1500)%Q.
Proof.
  pose proof (synthesize_bounds math c g) as (_ & Bcpu & _ & _ & _).
  revert Bcpu. unfold unit_draws in Hg. destruct g as [str p]. cbn [stream] in Hg.
  cbv beta iota zeta delta [PiHealthSimulator.synthesize random_uniform random_random
    fst stream pos PiHealthSimulator.cpu_usage PiHealthSimulator.disk_usage
    PiHealthSimulator.load_1m PiHealthSimulator.load_5m PiHealthSimulator.load_15m
    PiHealthSimulator.network_upload PiHealthSimulator.network_download
    PiHealthSimulator.uptime PiHealthSimulator.voltage PiHealthSimulator.frequency].
  set (cpu := py_max 5 (py_min 95 _)). intros Bcpu.
  pose proof (Hg (S (S (S p)))) as U3. pose proof (Hg (S (S (S (S p))))) as U4.
  pose proof (Hg (S (S (S (S (S p)))))) as U5.
  pose proof (Hg (S (S (S (S (S (S p))))))) as U6.
  pose proof (Hg (S (S (S (S (S (S (S p)))))))) as U7.
  pose proof (Hg (S (S (S (S (S (S (S (S p))))))))) as U8.
  pose proof (Hg (S (S (S (S (S (S (S (S (S p)))))))))) as U9.
  pose proof (Hg (S (S (S (S (S (S (S (S (S (S p))))))))))) as U10.
  pose proof (Hg (S (S (S (S (S (S (S (S (S (S (S p)))))))))))) as U11.
  set (u3 := str (S (S (S p)))) in *.
  set (u4 := str (S (S (S (S p))))) in *.
  set (u5 := str (S (S (S (S (S p)))))) in *.
  set (u6 := str (S (S (S (S (S (S p))))))) in *.
  set (u7 := str (S (S (S (S (S (S (S p)))))))) in *.
  set (u8 := str (S (S (S (S (S (S (S (S p))))))))) in *.
  set (u9 := str (S (S (S (S (S (S (S (S (S p)))))))))) in *.
  set (u10 := str (S (S (S (S (S (S (S (S (S (S p))))))))))) in *.
  set (u11 := str (S (S (S (S (S (S (S (S (S (S (S p)))))))))))) in *.
  assert (Hdisk : (58 <= py_max 40 (py_min 95 (60 + (-2 + (2 - -2) * u3))) <= 62)%Q).
  { unfold py_max, py_min.
    destruct (Qltb (60 + (-2 + (2 - -2) * u3)) 95) eqn:E1;
      [|apply Qltb_ge in E1; lra].
    destruct (Qltb 40 (60 + (-2 + (2 - -2) * u3))) eqn:E2;
      [lra|apply Qltb_ge in E2; lra]. }
  assert (Hcpu : (cpu == 100 * (cpu / 100))%Q) by (field; discriminate).
  set (hundredth := (cpu / 100)%Q) in *.
  set (l1 := py_max 0.1 (hundredth * 2 + (-0.5 + (0.5 - -0.5) * u4))).
  assert (Hl1 : (0.1 <= l1 <= 2.4)%Q).
  { subst l1. destruct (py_max_cases 0.1 (hundredth * 2 + (-0.5 + (0.5 - -0.5) * u4)))
      as [[-> _]|[-> Hlt]]; lra. }
  repeat apply conj; try lra; apply Hdisk.
Qed.
End UnitDraws.

Lemma generate_realistic_health_data_inv_full (self : PiHealthSimulator.t)
    (globals : gmap string pyobj) (c : clock) (g : rng)
    (d : gmap string json) (g' : rng) (t : list event) :
  PiHealthSimulator.generate_realistic_health_data self globals c g = (Returns (d, g'), t) ->
  exists math,
    d = PiHealthSimulator.health_data_of self c (fst (PiHealthSimulator.synthesize math c g)) /\
    g' = snd (PiHealthSimulator.synthesize math c g) /\
    t = [].
Proof.
  unfold PiHealthSimulator.generate_realistic_health_data, load_global. intros H.
  destruct (globals !! "datetime");
    cbn -[PiHealthSimulator.synthesize] in H; [|discriminate].
  destruct (globals !! "math") as [[m|]|];
    cbn -[PiHealthSimulator.synthesize] in H; try discriminate.
  destruct (globals !! "random");
    cbn -[PiHealthSimulator.synthesize] in H; [|discriminate].
  destruct (globals !! "time");
    cbn -[PiHealthSimulator.synthesize] in H; [|discriminate].
  exists m. destruct (PiHealthSimulator.synthesize m c g) as [s g2].
  cbn -[PiHealthSimulator.health_data_of] in H.
  injection H as <- <- <-. repeat split; reflexivity.
Qed.

Lemma synthesize_draws (math : math_module) (c : clock) (g : rng) :
  snd (PiHealthSimulator.synthesize math c g)
  = {| stream := stream g; pos := 12 + pos g |}.
Proof. destruct g as [str p]. reflexivity. Qed.

(** X14. With a random source whose draws lie in [0, 1), as
    [random.random()] gives them, the secondary metrics of a synthetic
    host sample stay in the ranges the formulas span: diskUsage in
    [58, 62], loadAverage1m in [0.1, 2.4], loadAverage5m in [-0.12, 2.12],
    loadAverage15m in [-0.21, 2.01], networkUpload in [0, 10],
    networkDownload in [0, 20], voltage in [4.6, 5] and frequency in
    [1300, 1500]; the uptime field is the clock's epoch time shifted by at
    most an hour, rounded. *)
Theorem X14_secondary_metrics_with_unit_draws :
  forall (self : PiHealthSimulator.t) (globals : gmap string pyobj) (c : clock)
         (g g' : rng) (d : gmap string json) (t : list event),
    unit_draws g ->
    PiHealthSimulator.generate_realistic_health_data self globals c g
    = (Returns (d, g'), t) ->
    field_between d "diskUsage" 58 62 /\
    field_between d "loadAverage1m" 0.1 2.4 /\
    field_between d "loadAverage5m" (-0.12) 2.12 /\
    field_between d "loadAverage15m" (-0.21) 2.01 /\
    field_between d "networkUpload" 0 10 /\
    field_between d "networkDownload" 0 20 /\
    field_between d "voltage" 4.6 5 /\
    field_between d "frequency" 1300 1500 /\
    exists uptime,
      d !! "uptime" = Some (JNum (round uptime 2)) /\
      (time_time c - 3600 <= uptime)%Q /\ (uptime <= time_time c + 3600)%Q.
Proof.
  intros self globals c g g' d t Hg H.
  apply generate_realistic_health_data_inv_full in H as (math & -> & _ & _).
  destruct (synthesize_unit_bounds math c g Hg)
    as (Bd & B1 & B5 & B15 & Bu & Bdn & Bup & Bv & Bf).
  unfold field_between, PiHealthSimulator.health_data_of.
  repeat apply conj.
  - eexists. split; [reflexivity|]. apply (round_between _ 2 58 62 5800 6200);
      [reflexivity|reflexivity|apply Bd|apply Bd].
  - eexists. split; [reflexivity|]. apply (round_between _ 2 0.1 2.4 10 240);
      [reflexivity|reflexivity|apply B1|apply B1].
  - eexists. split; [reflexivity|]. apply (round_between _ 2 (-0.12) 2.12 (-12) 212);
      [reflexivity|reflexivity|apply B5|apply B5].
  - eexists. split; [reflexivity|]. apply (round_between _ 2 (-0.21) 2.01 (-21) 201);
      [reflexivity|reflexivity| |]; destruct B15; lra.
  - eexists. split; [reflexivity|]. apply (round_between _ 2 0 10 0 1000);
      [reflexivity|reflexivity|apply Bu|apply Bu].
  - eexists. split; [reflexivity|]. apply (round_between _ 2 0 20 0 2000);
      [reflexivity|reflexivity|apply Bdn|apply Bdn].
  - eexists. split; [reflexivity|]. apply (round_between _ 3 4.6 5 4600 5000);
      [reflexivity|reflexivity|apply Bv|apply Bv].
  - eexists. split; [reflexivity|]. apply (round_between _ 0 1300 1500 1300 1500);
      [reflexivity|reflexivity|apply Bf|apply Bf].
  - eexists. split; [reflexivity|]. split; apply Bup.
Qed.

Lemma tenths_unit_draws : unit_draws Examples.tenths.
Proof. intros k. split; [discriminate|reflexivity]. Defined.

Lemma X14_witness :
  field_between
    (PiHealthSimulator.health_data_of Examples.host_simulator Examples.morning
       (fst (PiHealthSimulator.synthesize libm Examples.morning Examples.tenths)))
    "voltage" 4.6 5.
Proof.
  apply (X14_secondary_metrics_with_unit_draws Examples.host_simulator
           PiHealthSimulator.module_globals Examples.morning Examples.tenths
           {| stream := fun _ => 0.1%Q; pos := 12 |} _ [] tenths_unit_draws).
  reflexivity.
Defined.

(** X15. A synthesis uses the random source in order and nothing else of
    it: a host sample takes exactly twelve draws, a sensor reading exactly
    two, the stream itself is left as it was, and no event is produced
    (no request, no sleep, no log). *)
Theorem X15_draws_consumed :
  (forall (self : PiHealthSimulator.t) (globals : gmap string pyobj) (c : clock)
          (g g' : rng) (d : gmap string json) (t : list event),
      PiHealthSimulator.generate_realistic_health_data self globals c g
      = (Returns (d, g'), t) ->
      g' = {| stream := stream g; pos := 12 + pos g |} /\ t = []) /\
  (forall (self : DHT11Simulator.t) (globals : gmap string pyobj) (c : clock)
          (g g' : rng) (temperature humidity : Q) (t : list event),
      DHT11Simulator.generate_realistic_data self globals c g
      = (Returns (temperature, humidity, g'), t) ->
      g' = {| stream := stream g; pos := 2 + pos g |} /\ t = []).
Proof.
  split.
  - intros self globals c g g' d t H.
    apply generate_realistic_health_data_inv_full in H as (math & _ & -> & ->).
    split; [apply synthesize_draws|reflexivity].
  - intros self globals c g g' temperature humidity t.
    unfold DHT11Simulator.generate_realistic_data, load_global.
    destruct (globals !! "datetime"); cbn; [|discriminate].
    destruct (globals !! "math") as [[m|]|]; cbn; try discriminate.
    destruct (globals !! "random"); cbn; [|discriminate].
    destruct g as [str k].
    cbv beta iota zeta delta [random_uniform random_random stream pos ret].
    intros [= _ _ <- <-]. split; reflexivity.
Qed.

Lemma X15_witness :
  {| stream := fun _ : nat => 0.1%Q; pos := 12 |}
  = {| stream := stream Examples.tenths; pos := 12 + pos Examples.tenths |} /\
  {| stream := fun _ : nat => 0.1%Q; pos := 2 |}
  = {| stream := stream Examples.tenths; pos := 2 + pos Examples.tenths |}.
Proof.
  split.
  - apply (proj1 X15_draws_consumed Examples.host_simulator
             PiHealthSimulator.module_globals Examples.morning Examples.tenths
             {| stream := fun _ => 0.1%Q; pos := 12 |}
             (PiHealthSimulator.health_data_of Examples.host_simulator Examples.morning
                (fst (PiHealthSimulator.synthesize libm Examples.morning Examples.tenths)))
             []).
    reflexivity.
  - apply (proj2 X15_draws_consumed Examples.sensor_simulator Examples.patched_globals
             Examples.morning Examples.tenths
             {| stream := fun _ => 0.1%Q; pos := 2 |} 23.1%Q (196 # 5) []).
    vm_compute. reflexivity.
Defined.

Section HostSimulatorLoop.
Import PiHealthSimulator.
Variables (self : t) (w : env).
Hypothesis Hapi : forall cycle, transport_level (api w cycle).
Hypothesis Hstatus : forall cycle, transport_level (status w cycle).
Hypothesis Hrecs : forall cycle, transport_level (recommendations w cycle).
Hypothesis Halerts : forall cycle, transport_level (alerts w cycle).
Hypothesis Hinterval : (0 <= interval self)%Z.







End HostSimulatorLoop.






(** * The reporters of the simulators *)




(** * An exception of the client that is not of the transport *)

Lemma tally_raised {A B} (p q : event -> bool) (c : io A) (k : A -> io B)
    (e : exn) (n m : nat) :
  tally p q c (Raised e) n m -> tally p q (bind c k) (Raised e) n m.
Proof.
  destruct c as [[a|e'] t]; intros (R & N & M); cbn in R; [discriminate|].
  injection R as ->. repeat split; assumption.
Qed.

Section SensorStops.
Import DHT11Sensor.
Variables (self : t) (dev : driver) (w : env) (e : exn) (t h : Q).
Hypothesis Hdev : dht_device self = Some dev.
Hypothesis Hexn : is_RequestException e = false.
Hypothesis Hin : in_range t h.

Lemma read_sensor_data_first_attempt (call : nat) (now : string) :
  temperature (dev call 0) = Yields (Some t) ->
  humidity (dev call 0) = Yields (Some h) ->
  result_of (read_sensor_data self call now)
  = Returns (Some {| sd_temperature := t; sd_humidity := h;
                     sd_timestamp := now +:+ "Z" |}).
Proof.
  intros Ht Hh. unfold read_sensor_data. rewrite Hdev.
  change (seq 0 MAX_RETRIES) with ([] ++ 0%nat :: [1; 2]%nat).
  destruct (for_attempt_in_first_valid (dev call) now [] [1; 2]%nat 0%nat t h)
    as (R & _); auto.
  { intros a []. }
  rewrite (result_bind _ _ _ R). reflexivity.
Qed.

Lemma send_to_api_client_failure (d : sensor_data) :
  tally (is_sleep_of READING_INTERVAL) is_post (send_to_api self (Some d) (Fails e))
    (Raised e) 0 1.
Proof.
  unfold send_to_api, session_post, tally. cbn -[is_RequestException payload_of].
  rewrite Hexn. repeat split.
Qed.

(** The loop of the sensor agent up to the cycle in which the client
    fails. *)
Lemma while_true_stops (k : nat) :
  forall fuel cycle,
    (k < fuel)%nat ->
    (forall c attempt, (cycle <= c < cycle + k)%nat -> tame (dev c attempt)) ->
    (forall c, (cycle <= c < cycle + k)%nat -> transport_level (api w c)) ->
    temperature (dev (cycle + k)%nat 0%nat) = Yields (Some t) ->
    humidity (dev (cycle + k)%nat 0%nat) = Yields (Some h) ->
    api w (cycle + k)%nat = Fails e ->
    exists posts,
      tally (is_sleep_of READING_INTERVAL) is_post (while_true self w cycle fuel)
        (Raised e) k (S posts) /\
      (posts <= k)%nat.
Proof.
  induction k as [|k IH]; intros fuel cycle Hlt Ht Ha Htemp Hhum Hapi;
    (destruct fuel as [|fuel]; [lia|]); cbn [while_true].
  - rewrite Nat.add_0_r in Htemp, Hhum, Hapi.
    pose proof (read_sensor_data_first_attempt cycle (utcnow w cycle) Htemp Hhum) as R.
    destruct (read_sensor_data_sleeps self cycle (utcnow w cycle)) as (Hs & _).
    apply sleeps_one_second_not_interval in Hs.
    destruct (read_sensor_data_spec self cycle (utcnow w cycle)) as (_ & Hp & _ & _).
    exists 0%nat. split; [|lia].
    eapply (tally_bind _ _ _ _ _ _ 0 0 0 1); [repeat split; eassumption|].
    apply tally_raised. apply tally_raised. rewrite Hapi.
    apply send_to_api_client_failure.
  - destruct (read_sensor_data_tame self dev cycle (utcnow w cycle) Hdev)
      as (data & Hdata); [intros attempt; apply Ht; lia|].
    destruct (read_sensor_data_sleeps self cycle (utcnow w cycle)) as (Hs & _).
    apply sleeps_one_second_not_interval in Hs.
    destruct (read_sensor_data_spec self cycle (utcnow w cycle)) as (_ & Hp & _ & _).
    destruct (IH fuel (S cycle)) as (posts & IHt & IHle);
      [lia
      |intros c attempt Hc; apply Ht; lia
      |intros c Hc; apply Ha; lia
      |rewrite <- Htemp; f_equal; f_equal; lia
      |rewrite <- Hhum; f_equal; f_equal; lia
      |rewrite <- Hapi; f_equal; lia|].
    assert (Hreport : exists j,
      tally (is_sleep_of READING_INTERVAL) is_post
        (match data with
         | Some _ =>
             success <- send_to_api self data (api w cycle) ;;
             if negb success then
               log WARNING "Failed to send data to API, but continuing..."
             else ret tt
         | None => ret tt
         end) (Returns tt) 0 j /\ (j <= 1)%nat).
    { destruct data as [d|]; [|exists 0%nat; split; [repeat split|lia]].
      destruct (send_to_api_transport self d (api w cycle)) as ((b & Hb) & Hpost & Hsl & _);
        [apply Ha; lia|].
      exists 1%nat. split; [|lia].
      eapply (tally_bind _ _ _ _ _ _ 0 1 0 0); [repeat split; eassumption|].
      destruct b; repeat split. }
    destruct Hreport as (j & Hj & Hj1).
    exists (j + posts)%nat. split; [|lia].
    change (S k) with (0 + (0 + (1 + k)))%nat.
    replace (S (j + posts)) with (0 + (j + (0 + S posts)))%nat by lia.
    eapply tally_bind; [repeat split; eassumption|].
    eapply tally_bind; [exact Hj|].
    eapply tally_bind; [repeat split|].
    exact IHt.
Qed.
End SensorStops.

(** X19. An exception of the HTTP client that is not a
    [RequestException] ends the sensor agent: when the POST of cycle [k]
    raises such an [Exception], after [k] cycles in which the driver and
    the transport failed at most in the tolerated ways, the loop is left
    through the handler of [Exception], no further cycle runs, and [run]
    returns after the log records "Unexpected error" and "DHT11 sensor
    monitoring stopped". *)
Theorem X19_client_failure_stops_the_sensor_agent :
  forall (self : DHT11Sensor.t) (drv : DHT11Sensor.driver) (w : DHT11Sensor.env)
         (fuel k : nat) (e : exn) (t h : Q),
    DHT11Sensor.hardware w = Returns drv ->
    (k < fuel)%nat ->
    (forall cycle attempt, (cycle < k)%nat -> tame (drv cycle attempt)) ->
    (forall cycle, (cycle < k)%nat -> transport_level (DHT11Sensor.api w cycle)) ->
    DHT11Sensor.temperature (drv k 0%nat) = DHT11Sensor.Yields (Some t) ->
    DHT11Sensor.humidity (drv k 0%nat) = DHT11Sensor.Yields (Some h) ->
    in_range t h ->
    DHT11Sensor.api w k = Fails e ->
    is_RequestException e = false ->
    is_Exception e = true ->
    let c := DHT11Sensor.run self w fuel in
    result_of c = Returns tt /\
    count (is_sleep_of DHT11Sensor.READING_INTERVAL) (trace_of c) = k /\
    (1 <= count is_post (trace_of c) <= S k)%nat /\
    exists t', trace_of c = t' ++ [Log ERROR "Unexpected error";
                                  Log INFO "DHT11 sensor monitoring stopped"].
Proof.
  intros self drv w fuel k e t h Hhw Hlt Ht Ha Htemp Hhum Hin Hapi Hreq Hexn.
  unfold DHT11Sensor.run, DHT11Sensor.initialize_sensor. rewrite Hhw.
  cbn -[DHT11Sensor.while_true].
  set (self' := {| DHT11Sensor.gpio_pin := DHT11Sensor.gpio_pin self;
                   DHT11Sensor.device_id := DHT11Sensor.device_id self;
                   DHT11Sensor.api_url := DHT11Sensor.api_url self;
                   DHT11Sensor.dht_device := Some drv |}).
  destruct (while_true_stops self' drv w e t h eq_refl Hreq Hin k fuel 0%nat)
    as (posts & (R & N & M) & Hle); auto.
  { intros c attempt Hc. apply Ht. lia. }
  { intros c Hc. apply Ha. lia. }
  destruct (DHT11Sensor.while_true self' w 0 fuel) as [r tr]. cbn in R, N, M.
  subst r. destruct e; try discriminate; cbn; rewrite !count_app, N, M; cbn;
    (split; [reflexivity|]); (split; [lia|]); (split; [lia|]);
    exists (Log INFO "Starting DHT11 sensor monitoring..."
            :: Log INFO "DHT11 sensor initialized successfully"
            :: Log INFO "Monitoring started" :: Log INFO "Device ID"
            :: Log INFO "Reading interval" :: tr);
    rewrite <- app_assoc; reflexivity.
Qed.

Lemma X19_witness :
  result_of (DHT11Sensor.run (Examples.sensor_with Examples.fine)
               Examples.broken_client_world 5) = Returns tt /\
  count (is_sleep_of DHT11Sensor.READING_INTERVAL)
    (trace_of (DHT11Sensor.run (Examples.sensor_with Examples.fine)
                 Examples.broken_client_world 5)) = 2%nat.
Proof.
  destruct (X19_client_failure_stops_the_sensor_agent
              (Examples.sensor_with Examples.fine) Examples.fine
              Examples.broken_client_world 5%nat 2%nat ValueError 22.5%Q 48%Q eq_refl)
    as (R & S & _).
  - lia.
  - intros cycle attempt _. split; exact I.
  - intros cycle Hc. destruct cycle as [|[|cycle]]; [exact I|exact I|lia].
  - reflexivity.
  - reflexivity.
  - repeat split; discriminate.
  - reflexivity.
  - reflexivity.
  - reflexivity.
  - split; [exact R|exact S].
Defined.

(** * The sidecar queries of the host simulator *)



